(** * Link shortener: the link service, its repository and the redirect route

    A shallow embedding of
    - the domain types and the class [LinkService]
      ([src/types/link.ts]; the service is imported as
      [@/services/linkService]),
    - the class [LinkRepository] ([src/repositories/linkRepository.ts]),
    - the [links] table ([src/db/schema.ts]),
    - the [GET] route, the layered [createLink] action with the validator
      of its [shortCode] input, and the older inline [createLink] action
      ([src/pages/[shortCode].ts]),
    followed by the properties of the specification that concern them.

    Asynchronous code is written in a state-and-exception monad over a
    [World]: the table, the clock, the random source, a script of what the
    surroundings do at each database call (rows committed by other requests,
    an outage), and a trace of the calls made, which the code never reads. *)

From Stdlib Require Import ZArith NArith List String Ascii Bool Arith Lia.
From Stdlib Require Import Sorting.Sorted Sorting.Permutation.
Import ListNotations.

Local Open Scope string_scope.
Local Open Scope Z_scope.

(** ** Values of the language *)

(** JavaScript truthiness of a [string | undefined]: [undefined] and the
    empty string are falsy, every other string is truthy. *)
Definition truthy (s : option string) : bool :=
  match s with
  | None => false
  | Some EmptyString => false
  | Some (String _ _) => true
  end.

(** [!s] and [!!s]. *)
Definition js_not (s : option string) : bool := negb (truthy s).
Definition js_notnot (s : option string) : bool := negb (js_not s).

(** ** The domain types ([src/types/link.ts]) *)

Record Link := mkLink {
  id : Z;
  originalUrl : string;
  shortCode : string;
  isCustom : option bool;      (* boolean | null *)
  createdAt : option Z;        (* Date | null, as epoch milliseconds *)
  clickCount : Z
}.

Record CreateLinkDTO := mkDTO {
  dto_originalUrl : string;
  dto_shortCode : option string   (* shortCode?: string *)
}.

Record LinkSummary := mkSummary {
  sum_id : Z;
  sum_originalUrl : string;
  sum_shortCode : string
}.

(** ** Exceptions *)

Inductive ErrorCode := CONFLICT | BAD_REQUEST | NOT_FOUND | INTERNAL_SERVER_ERROR.

(** The two [unique()] columns of the schema. *)
Inductive Column := ColOriginalUrl | ColShortCode.

(** What the database driver throws: a violated [UNIQUE] constraint, or the
    storage being unreachable. *)
Inductive DbFailure := UniqueViolation (c : Column) | Unavailable.

Inductive Exn :=
  | LinkServiceError (message : string) (code : ErrorCode)
  | ActionError (code : ErrorCode) (message : string)
  | DriverError (f : DbFailure).

Definition is_LinkServiceError (e : Exn) : bool :=
  match e with LinkServiceError _ _ => true | _ => false end.

Definition is_ActionError (e : Exn) : bool :=
  match e with ActionError _ _ => true | _ => false end.

(** ** The world a request runs in *)

(** The object given to [db.insert(links).values(...)]. *)
Record NewLink := mkNew {
  new_originalUrl : string;
  new_shortCode : string;
  new_isCustom : bool
}.

(** What the surroundings do at one database call of the request under
    study: rows that other requests commit just before the call is served,
    and whether the call then finds the storage down. *)
Record Turn := mkTurn {
  arrivals : list NewLink;
  outage : bool
}.

(** Observable steps, newest first in [trace]. *)
Inductive Event :=
  | EvNanoid (code : string)
  | EvSelectByUrl (url : string)
  | EvSelectByCode (code : string)
  | EvSelectAll
  | EvInsert (url code : string)
  | EvUpdate (rowId : Z)
  | EvConsoleError (e : Exn).

Record World := mkWorld {
  rows : list Link;        (* the [links] table, in rowid order *)
  lastId : Z;              (* sqlite_sequence of the AUTOINCREMENT key *)
  clock : Z;               (* what [new Date()] reads, in milliseconds *)
  tape : nat -> N;         (* the random bytes still to come *)
  cursor : nat;            (* how many of them were drawn *)
  script : list Turn;      (* surroundings, one entry per database call *)
  trace : list Event
}.

Definition set_rows (r : list Link) (w : World) : World :=
  mkWorld r (lastId w) (clock w) (tape w) (cursor w) (script w) (trace w).
Definition set_lastId (n : Z) (w : World) : World :=
  mkWorld (rows w) n (clock w) (tape w) (cursor w) (script w) (trace w).
Definition set_cursor (c : nat) (w : World) : World :=
  mkWorld (rows w) (lastId w) (clock w) (tape w) c (script w) (trace w).
Definition set_script (s : list Turn) (w : World) : World :=
  mkWorld (rows w) (lastId w) (clock w) (tape w) (cursor w) s (trace w).
Definition log (e : Event) (w : World) : World :=
  mkWorld (rows w) (lastId w) (clock w) (tape w) (cursor w) (script w) (e :: trace w).

(** ** The monad of asynchronous code *)

Definition M (A : Type) : Type := World -> (Exn + A) * World.

Definition ret {A} (a : A) : M A := fun w => (inr a, w).
Definition throw {A} (e : Exn) : M A := fun w => (inl e, w).
Definition bind {A B} (m : M A) (k : A -> M B) : M B :=
  fun w => match m w with
           | (inl e, w') => (inl e, w')
           | (inr a, w') => k a w'
           end.
Definition try_catch {A} (m : M A) (h : Exn -> M A) : M A :=
  fun w => match m w with
           | (inl e, w') => h e w'
           | (inr a, w') => (inr a, w')
           end.

Declare Scope async_scope.
Delimit Scope async_scope with async.
Notation "x <- m ;; k" := (bind m (fun x => k))
  (at level 61, m at next level, right associativity) : async_scope.
Notation "m ;; k" := (bind m (fun _ => k))
  (at level 61, right associativity) : async_scope.
Notation "'try' m 'catch' h" := (try_catch m h)
  (at level 62, m at level 61, h at level 61) : async_scope.
Local Open Scope async_scope.

Definition outcome {A} (r : (Exn + A) * World) : Exn + A := fst r.
Definition after {A} (r : (Exn + A) * World) : World := snd r.

(** ** The [links] table ([src/db/schema.ts]) and the driver *)

Module Db.

(** [eq(links.originalUrl, url)] and [eq(links.shortCode, code)]: SQLite
    compares TEXT byte by byte. *)
Definition eq_originalUrl (url : string) (l : Link) : bool :=
  String.eqb (originalUrl l) url.
Definition eq_shortCode (code : string) (l : Link) : bool :=
  String.eqb (shortCode l) code.
Definition eq_id (i : Z) (l : Link) : bool := Z.eqb (id l) i.

(** [INSERT ... RETURNING *]. Both text columns are [unique().notNull()];
    [id] is [primaryKey({ autoIncrement: true })]; [createdAt] takes
    [$defaultFn(() => new Date())] and [clickCount] its [default(0)]. *)
Definition insert_returning (v : NewLink) (w : World)
  : (DbFailure + Link) * World :=
  if existsb (eq_originalUrl (new_originalUrl v)) (rows w) then
    (inl (UniqueViolation ColOriginalUrl), w)
  else if existsb (eq_shortCode (new_shortCode v)) (rows w) then
    (inl (UniqueViolation ColShortCode), w)
  else
    let l := mkLink (lastId w + 1) (new_originalUrl v) (new_shortCode v)
                    (Some (new_isCustom v)) (Some (clock w)) 0 in
    (inr l, set_lastId (lastId w + 1) (set_rows (rows w ++ [l]) w)).

(** [UPDATE links SET click_count = n WHERE id = i]. *)
Definition set_clickCount (n : Z) (l : Link) : Link :=
  mkLink (id l) (originalUrl l) (shortCode l) (isCustom l) (createdAt l) n.

Definition update_clickCount (i : Z) (n : Z) (w : World)
  : (DbFailure + unit) * World :=
  (inr tt,
   set_rows (map (fun l => if eq_id i l then set_clickCount n l else l)
                 (rows w)) w).

(** A [SELECT]: it reads the table and changes nothing. *)
Definition query {A} (f : list Link -> A) (w : World)
  : (DbFailure + A) * World :=
  (inr (f (rows w)), w).

(** [.where(p)] and [.limit(n)]. *)
Definition where_ (p : Link -> bool) (t : list Link) : list Link := filter p t.
Definition limit (n : nat) (t : list Link) : list Link := firstn n t.

(** [ORDER BY created_at] ascending; SQLite puts NULL first. *)
Definition created_le (a b : Link) : bool :=
  match createdAt a, createdAt b with
  | None, _ => true
  | Some _, None => false
  | Some x, Some y => Z.leb x y
  end.

Fixpoint insert_sorted (x : Link) (l : list Link) : list Link :=
  match l with
  | [] => [x]
  | y :: l' => if created_le x y then x :: y :: l'
               else y :: insert_sorted x l'
  end.

Definition order_by_createdAt (l : list Link) : list Link :=
  fold_right insert_sorted [] l.

(** A row committed by another request: it goes through the same
    constraints, and is dropped when it violates one. *)
Definition commit (w : World) (v : NewLink) : World :=
  snd (insert_returning v w).

(** The surroundings take their turn before the call is served. *)
Definition take_turn (w : World) : bool * World :=
  match script w with
  | [] => (false, w)
  | t :: rest => (outage t, fold_left commit (arrivals t) (set_script rest w))
  end.

(** One awaited database call. *)
Definition call {A} (ev : Event) (op : World -> (DbFailure + A) * World)
  : M A :=
  fun w =>
    let (down, w1) := take_turn w in
    let w2 := log ev w1 in
    if down then (inl (DriverError Unavailable), w2)
    else match op w2 with
         | (inl f, w3) => (inl (DriverError f), w3)
         | (inr a, w3) => (inr a, w3)
         end.

End Db.

(** ** The [nanoid] package

    [nanoid(size)] is not code of this repository. It is written here after
    the package's own source: [size] random bytes, each masked with 63 and
    looked up in the 64-character [urlAlphabet]. Releases differ in the
    order in which the bytes are read, never in the alphabet. *)

Module Nanoid.

Definition urlAlphabet : string :=
  "useandom-26T198340PX75pxJACKVERYMINDBUSHWOLF_GQZbfghjklqvwyzrict".

(** [urlAlphabet[i]], which JavaScript appends as ["undefined"] when [i]
    is out of range. *)
Definition charAt (i : nat) : string :=
  match String.get i urlAlphabet with
  | Some c => String c EmptyString
  | None => "undefined"
  end.

Fixpoint draw (t : nat -> N) (from : nat) (size : nat) : string :=
  match size with
  | O => EmptyString
  | S n => charAt (N.to_nat (N.land (t from) 63)) ++ draw t (S from) n
  end.

Definition nanoid (size : nat) : M string :=
  fun w =>
    let code := draw (tape w) (cursor w) size in
    (inr code, log (EvNanoid code) (set_cursor (cursor w + size)%nat w)).

End Nanoid.

(** ** [LinkRepository] ([src/repositories/linkRepository.ts]) *)

Module LinkRepository.

(** The argument of [create]: [CreateLinkDTO & { shortCode: string }]. *)
Record CreateData := mkCreate {
  cd_originalUrl : string;
  cd_shortCode : string
}.

Definition findByOriginalUrl (url : string) : M (option Link) :=
  result <- Db.call (EvSelectByUrl url)
              (Db.query (fun links =>
               Db.limit 1 (Db.where_ (Db.eq_originalUrl url) links))) ;;
  ret (hd_error result).

Definition findByShortCode (code : string) : M (option Link) :=
  result <- Db.call (EvSelectByCode code)
              (Db.query (fun links =>
               Db.limit 1 (Db.where_ (Db.eq_shortCode code) links))) ;;
  ret (hd_error result).

Definition create (data : CreateData) : M Link :=
  newLink <- Db.call (EvInsert (cd_originalUrl data) (cd_shortCode data))
               (Db.insert_returning
                  (mkNew (cd_originalUrl data) (cd_shortCode data)
                         (js_notnot (Some (cd_shortCode data))))) ;;
  ret newLink.

Definition summary (l : Link) : LinkSummary :=
  mkSummary (id l) (originalUrl l) (shortCode l).

Definition findAll : M (list LinkSummary) :=
  allLinks <- Db.call EvSelectAll
                (Db.query (fun links =>
                 map summary (Db.order_by_createdAt links))) ;;
  ret allLinks.

End LinkRepository.

(** ** [LinkService] ([src/types/link.ts], from its line 22 on) *)

Module LinkService.

Import LinkRepository.

(** The value of a [string | undefined] known to be truthy. *)
Definition the_string (s : option string) : string :=
  match s with Some c => c | None => "undefined" end.

(** [for (let i = 0; i < maxAttempts; i++)], by the iterations left. *)
Fixpoint generateUniqueShortCode (maxAttempts : nat) : M string :=
  match maxAttempts with
  | O => throw (LinkServiceError "No se pudo generar un código único"
                                 INTERNAL_SERVER_ERROR)
  | S remaining =>
      candidate <- Nanoid.nanoid 8 ;;
      existing <- findByShortCode candidate ;;
      match existing with
      | None => ret candidate
      | Some _ => generateUniqueShortCode remaining
      end
  end.

Definition createLink (data : CreateLinkDTO) : M Link :=
  try (
    existingUrl <- findByOriginalUrl (dto_originalUrl data) ;;
    match existingUrl with
    | Some _ =>
        throw (LinkServiceError "Esta URL ya está registrada" CONFLICT)
    | None =>
        let finalShortCode := dto_shortCode data in
        finalShortCode <-
          (if js_not finalShortCode then generateUniqueShortCode 3
           else
             existingShortCode <- findByShortCode (the_string finalShortCode) ;;
             match existingShortCode with
             | Some _ =>
                 throw (LinkServiceError
                   "Este código personalizado ya está en uso. Elige uno diferente."
                   BAD_REQUEST)
             | None => ret (the_string finalShortCode)
             end) ;;
        newLink <- create (mkCreate (dto_originalUrl data) finalShortCode) ;;
        ret newLink
    end
  ) catch (fun error =>
    if is_LinkServiceError error then throw error
    else throw (LinkServiceError "Error al crear el enlace"
                                 INTERNAL_SERVER_ERROR)).

Definition getAllLinks : M (list LinkSummary) :=
  try findAll
  catch (fun _ => throw (LinkServiceError "Error al obtener enlaces"
                                          INTERNAL_SERVER_ERROR)).

End LinkService.

(** ** The layered actions ([src/pages/[shortCode].ts], last part) *)

Module Actions.

(** One character of [/^[a-zA-Z0-9-]+$/]. *)
Definition code_char (c : ascii) : bool :=
  let n := N_of_ascii c in
  ((97 <=? n) && (n <=? 122) || (65 <=? n) && (n <=? 90)
   || (48 <=? n) && (n <=? 57) || (n =? 45))%N.

Fixpoint all_chars (p : ascii -> bool) (s : string) : bool :=
  match s with
  | EmptyString => true
  | String c s' => p c && all_chars p s'
  end.

(** [z.string().min(3).max(10).regex(/^[a-zA-Z0-9-]+$/)], the check a
    supplied [shortCode] has to pass. A string the expression accepts is
    ASCII, so its number of UTF-16 units is its number of bytes. *)
Definition shortCodeSchema (s : string) : bool :=
  (3 <=? String.length s)%nat && (String.length s <=? 10)%nat
  && (1 <=? String.length s)%nat && all_chars code_char s.

(** [createLinkSchema]. The check of [originalUrl], [z.string().url()]
    refined by the protocol of [new URL(url)], is the platform's and is
    taken as [url_ok]; [shortCode] is [.optional()]. *)
Definition createLinkSchema (url_ok : string -> bool) (input : CreateLinkDTO)
  : bool :=
  url_ok (dto_originalUrl input)
  && match dto_shortCode input with
     | None => true
     | Some s => shortCodeSchema s
     end.

(** The [handler] of the [createLink] action: what runs once the input has
    passed [createLinkSchema]. *)
Definition createLink (input : CreateLinkDTO) : M Link :=
  try (
    newLink <- LinkService.createLink input ;;
    ret newLink
  ) catch (fun error =>
    match error with
    | LinkServiceError message code => throw (ActionError code message)
    | _ => throw (ActionError INTERNAL_SERVER_ERROR "Error al crear el enlace")
    end).

Definition getLinks : M (list LinkSummary) :=
  try (
    links <- LinkService.getAllLinks ;;
    ret links
  ) catch (fun error =>
    match error with
    | LinkServiceError message code => throw (ActionError code message)
    | _ => throw (ActionError INTERNAL_SERVER_ERROR "Error al obtener enlaces")
    end).

End Actions.

(** ** The older inline actions ([src/pages/[shortCode].ts], middle part) *)

Module InlineActions.

Definition createLink (input : CreateLinkDTO) : M Link :=
  try (
    existingUrl <- Db.call (EvSelectByUrl (dto_originalUrl input))
                     (Db.query (Db.where_ (Db.eq_originalUrl (dto_originalUrl input)))) ;;
    match existingUrl with
    | l :: _ =>
        throw (ActionError CONFLICT
                 ("Esta URL ya tiene un enlace acortado: /" ++ shortCode l))
    | [] =>
        finalShortCode <-
          (if js_not (dto_shortCode input) then Nanoid.nanoid 8
           else ret (LinkService.the_string (dto_shortCode input))) ;;
        existingShortCode <- Db.call (EvSelectByCode finalShortCode)
                               (Db.query (Db.where_ (Db.eq_shortCode finalShortCode))) ;;
        match existingShortCode with
        | _ :: _ =>
            throw (ActionError BAD_REQUEST
              "Este código personalizado ya está en uso. Elige uno diferente.")
        | [] =>
            newLink <- Db.call (EvInsert (dto_originalUrl input) finalShortCode)
                         (Db.insert_returning
                            (mkNew (dto_originalUrl input) finalShortCode
                                   (js_notnot (dto_shortCode input)))) ;;
            ret newLink
        end
    end
  ) catch (fun error =>
    if is_ActionError error then throw error
    else throw (ActionError INTERNAL_SERVER_ERROR "Failed to create link")).

(** The columns its [getLinks] selects. *)
Record LinkWithClicks := mkWithClicks {
  wc_id : Z;
  wc_originalUrl : string;
  wc_shortCode : string;
  wc_clickCount : Z
}.

Definition with_clicks (l : Link) : LinkWithClicks :=
  mkWithClicks (id l) (originalUrl l) (shortCode l) (clickCount l).

Definition getLinks : M (list LinkWithClicks) :=
  try (
    allLinks <- Db.call EvSelectAll
                  (Db.query (fun links =>
                     map with_clicks (Db.order_by_createdAt links))) ;;
    ret allLinks
  ) catch (fun _ =>
    throw (ActionError INTERNAL_SERVER_ERROR "Failed to fetch links")).

End InlineActions.

(** ** The redirect route ([src/pages/[shortCode].ts], first part) *)

Module Route.

Inductive Response :=
  | Plain (body : string) (status : Z)        (* new Response(body, { status }) *)
  | Redirect (location : string) (status : Z). (* redirect(location, status) *)

Definition console_error (e : Exn) : M unit :=
  fun w => (inr tt, log (EvConsoleError e) w).

(** [link.clickCount + 1] is written as the sum in Z. That is the number
    JavaScript computes as long as the count and the sum are safe integers
    (at most 2^53 - 1); statements about the value of the sum carry that
    bound. *)
Definition GET (shortCode_param : option string) : M Response :=
  try (
    if js_not shortCode_param then
      ret (Plain "Short code not provided" 400)
    else
      let code := LinkService.the_string shortCode_param in
      found <- Db.call (EvSelectByCode code)
                 (Db.query (Db.where_ (Db.eq_shortCode code))) ;;
      match found with
      | [] => ret (Plain "Link not found" 404)
      | link :: _ =>
          Db.call (EvUpdate (id link))
            (Db.update_clickCount (id link) (clickCount link + 1)) ;;
          ret (Redirect (originalUrl link) 302)
      end
  ) catch (fun error =>
    console_error error ;;
    ret (Plain "Internal Server Error" 500)).

End Route.

(** * Properties *)

(** ** Vocabulary of the statements *)

(** The surroundings stay out of the way: no other request commits and no
    call finds the storage down. *)
Definition quiet (w : World) : Prop := script w = [].

Definition unique_ids (t : list Link) : Prop := NoDup (map id t).
Definition unique_urls (t : list Link) : Prop := NoDup (map originalUrl t).
Definition unique_codes (t : list Link) : Prop := NoDup (map shortCode t).

(** What the schema keeps true of the table. *)
Definition consistent (w : World) : Prop :=
  unique_ids (rows w) /\ unique_urls (rows w) /\ unique_codes (rows w)
  /\ Forall (fun l => id l <= lastId w) (rows w).

(** One row before and after a visit of link [l]: [l] itself has one more
    click and is otherwise the same, every other row is untouched. *)
Definition clicked (l : Link) (before after : Link) : Prop :=
  (before = l ->
     id after = id l /\ originalUrl after = originalUrl l
     /\ shortCode after = shortCode l /\ isCustom after = isCustom l
     /\ createdAt after = createdAt l
     /\ clickCount after = clickCount l + 1)
  /\ (before <> l -> after = before).

Definition NotFound : Route.Response := Route.Plain "Link not found" 404.

(** [Number.MAX_SAFE_INTEGER]. *)
Definition max_safe_integer : Z := 2 ^ 53 - 1.

(** The same store with nothing going on around it. *)
Definition undisturbed (w : World) : World := set_script [] w.

(** A store with nothing in it, and nothing going on around it. *)
Definition empty_store : World :=
  mkWorld [] 0 0 (fun _ => 0%N) O [] [].

(** Counting what a request did, on the trace. *)
Definition is_nanoid (e : Event) : bool :=
  match e with EvNanoid _ => true | _ => false end.
Definition is_code_check (e : Event) : bool :=
  match e with EvSelectByCode _ => true | _ => false end.
Definition is_insert (e : Event) : bool :=
  match e with EvInsert _ _ => true | _ => false end.

Definition count (good : Event -> bool) (w : World) : nat :=
  List.length (filter good (trace w)).

Definition nanoids : World -> nat := count is_nanoid.
Definition code_checks : World -> nat := count is_code_check.
Definition inserts : World -> nat := count is_insert.

(** The [k]-th code the random source would hand out from [w] on. *)
Definition candidate (w : World) (k : nat) : string :=
  Nanoid.draw (tape w) (cursor w + 8 * k) 8.

Definition code_taken (code : string) (w : World) : bool :=
  existsb (Db.eq_shortCode code) (rows w).
Definition url_stored (url : string) (w : World) : bool :=
  existsb (Db.eq_originalUrl url) (rows w).

(** One character of [A-Za-z0-9_-], the alphabet of [nanoid]. *)
Definition url_safe_char (c : ascii) : bool :=
  Actions.code_char c || (N_of_ascii c =? 95)%N.

(** The part of [LinkService.createLink] that comes before the insert:
    steps 1 and 2 of its [try] block. *)
Definition choose_code (data : CreateLinkDTO) : M string :=
  existingUrl <- LinkRepository.findByOriginalUrl (dto_originalUrl data) ;;
  match existingUrl with
  | Some _ =>
      throw (LinkServiceError "Esta URL ya está registrada" CONFLICT)
  | None =>
      if js_not (dto_shortCode data) then LinkService.generateUniqueShortCode 3
      else
        existingShortCode <-
          LinkRepository.findByShortCode (LinkService.the_string (dto_shortCode data)) ;;
        match existingShortCode with
        | Some _ =>
            throw (LinkServiceError
              "Este código personalizado ya está en uso. Elige uno diferente."
              BAD_REQUEST)
        | None => ret (LinkService.the_string (dto_shortCode data))
        end
  end.

(** Its [catch] block. *)
Definition rethrow (error : Exn) : M Link :=
  if is_LinkServiceError error then throw error
  else throw (LinkServiceError "Error al crear el enlace" INTERNAL_SERVER_ERROR).

(** Two worlds that differ by the trace and the random bytes drawn only. *)
Definition same_store (w w' : World) : Prop :=
  rows w' = rows w /\ lastId w' = lastId w /\ clock w' = clock w
  /\ script w' = script w /\ tape w' = tape w.

(** A computation keeps a property of the world, whatever it returns. *)
Definition preserves (P : World -> Prop) {A} (m : M A) : Prop :=
  forall w, P w -> P (after (m w)).

(** A computation raises a counter by at most [n]. *)
Definition uses (f : World -> nat) (n : nat) {A} (m : M A) : Prop :=
  forall w, (f (after (m w)) <= f w + n)%nat.

(** [a] was created no later than [b]: the creation time of [a] is at most
    that of [b]. A row without a date counts as older than any dated row. *)
Definition earlier (a b : Link) : Prop :=
  match createdAt a, createdAt b with
  | Some ta, Some tb => ta <= tb
  | Some _, None => False
  | None, _ => True
  end.

(** [s] is the summary of [l]: its id, originalUrl and shortCode. *)
Definition summarises (l : Link) (s : LinkSummary) : Prop :=
  sum_id s = id l /\ sum_originalUrl s = originalUrl l
  /\ sum_shortCode s = shortCode l.

(** Sequences of requests. Between two requests the surroundings may set
    the clock, the random source and what happens during the next one. *)
Inductive Request :=
  | Create (data : CreateLinkDTO)        (* the layered action *)
  | CreateInline (data : CreateLinkDTO)  (* the older inline action *)
  | Resolve (shortCode_param : option string)
  | ListAll.

Record Surroundings := mkSurroundings {
  at_clock : Z;
  with_tape : nat -> N;
  with_script : list Turn
}.

Definition meet (s : Surroundings) (w : World) : World :=
  mkWorld (rows w) (lastId w) (at_clock s) (with_tape s) O (with_script s)
          (trace w).

Definition serve (r : Request) (w : World) : World :=
  match r with
  | Create data => after (Actions.createLink data w)
  | CreateInline data => after (InlineActions.createLink data w)
  | Resolve p => after (Route.GET p w)
  | ListAll => after (LinkService.getAllLinks w)
  end.

Fixpoint run (reqs : list (Surroundings * Request)) (w : World) : World :=
  match reqs with
  | [] => w
  | (s, r) :: rest => run rest (serve r (meet s w))
  end.

(** Stores used as examples. *)
Definition example_link : Link :=
  mkLink 1 "https://example.com" "abc123" (Some true) (Some 1000) 7.

Definition one_link_store : World :=
  mkWorld [example_link] 1 2000 (fun _ => 0%N) O [] [].

(** The same store when the storage is down at the first call of the
    request, and the empty store while another request commits a link with
    the code ["zzz999"] just before the first call is served. *)
Definition down_at_first_call (w : World) : World :=
  set_script [mkTurn [] true] w.

Definition code_arrives_meanwhile : World :=
  set_script [mkTurn [mkNew "https://other.example" "zzz999" true] false]
             empty_store.

(** The same store when the storage answers the first call of the request
    and is down at the second. *)
Definition down_at_second_call (w : World) : World :=
  set_script [mkTurn [] false; mkTurn [] true] w.

Definition two_link_store : World :=
  mkWorld [mkLink 1 "https://example.com" "abc123" (Some true) (Some 2000) 7;
           mkLink 2 "https://example.org" "uuuuuuuu" (Some true) (Some 1000) 0]
          2 3000 (fun _ => 0%N) O [] [].

(** [two_link_store] with a random source whose second code is fresh. *)
Definition second_code_fresh : World :=
  mkWorld (rows two_link_store) 2 3000
          (fun i => if (i <? 8)%nat then 0%N else 1%N) O [] [].

(** A random source that only yields byte 44, the index of the underscore. *)
Definition underscores : World :=
  mkWorld [] 0 0 (fun _ => 44%N) O [] [].

(** [one_link_store] while another request commits the code ["mycode"]
    between the two look-ups of a creation and its insert. *)
Definition race_on_code : World :=
  set_script [mkTurn [] false; mkTurn [] false;
              mkTurn [mkNew "https://other.example" "mycode" true] false]
             one_link_store.

(** *** Vocabulary of the further properties *)

(** Everything a computation may throw satisfies [Q]. *)
Definition throws_only (Q : Exn -> Prop) {A} (m : M A) : Prop :=
  forall w e, outcome (m w) = inl e -> Q e.

(** The four errors of [LinkService.createLink]. *)
Definition createLink_error (e : Exn) : Prop :=
  e = LinkServiceError "Esta URL ya está registrada" CONFLICT
  \/ e = LinkServiceError
           "Este código personalizado ya está en uso. Elige uno diferente."
           BAD_REQUEST
  \/ e = LinkServiceError "No se pudo generar un código único"
                          INTERNAL_SERVER_ERROR
  \/ e = LinkServiceError "Error al crear el enlace" INTERNAL_SERVER_ERROR.

(** What may leave steps 1 and 2: the driver's failures and three of the
    four. *)
Definition before_insert_error (e : Exn) : Prop :=
  (exists f, e = DriverError f) \/ createLink_error e.

Definition is_driver_error (e : Exn) : Prop := exists f, e = DriverError f.

Definition status (r : Route.Response) : Z :=
  match r with Route.Plain _ s => s | Route.Redirect _ s => s end.

(** Two rows that are the same link, click count apart. *)
Definition same_identity (a b : Link) : Prop :=
  id a = id b /\ originalUrl a = originalUrl b /\ shortCode a = shortCode b
  /\ isCustom a = isCustom b /\ createdAt a = createdAt b.

(** Every link of [w] is still in [w'], with at least as many clicks. *)
Definition grows (w w' : World) : Prop :=
  forall a, In a (rows w) ->
    exists b, In b (rows w') /\ same_identity a b
              /\ clickCount a <= clickCount b.

(** [k] visits of the same code, one after the other. *)
Fixpoint resolve_times (k : nat) (code : string) (w : World) : World :=
  match k with
  | O => w
  | S k' => resolve_times k' code (after (Route.GET (Some code) w))
  end.

(** The row [Db.update_clickCount] writes in place of [l]. *)
Definition bump (i n : Z) (l : Link) : Link :=
  if Db.eq_id i l then Db.set_clickCount n l else l.

Definition drop_clicks (r : InlineActions.LinkWithClicks) : LinkSummary :=
  mkSummary (InlineActions.wc_id r) (InlineActions.wc_originalUrl r)
            (InlineActions.wc_shortCode r).

(** ** Running the monad *)

Lemma take_turn_quiet w : quiet w -> Db.take_turn w = (false, w).
Proof. unfold quiet, Db.take_turn. intros ->. reflexivity. Qed.

Lemma quiet_log ev w : quiet w -> quiet (log ev w).
Proof. exact (fun H => H). Qed.

Lemma call_query_quiet {A} ev (f : list Link -> A) w :
  quiet w ->
  Db.call ev (Db.query f) w = (inr (f (rows w)), log ev w).
Proof.
  intros Hq. unfold Db.call. rewrite (take_turn_quiet w Hq). reflexivity.
Qed.

Lemma call_update_quiet ev i n w :
  quiet w ->
  Db.call ev (Db.update_clickCount i n) w
  = (inr tt,
     set_rows (map (fun l => if Db.eq_id i l then Db.set_clickCount n l else l)
                   (rows w)) (log ev w)).
Proof.
  intros Hq. unfold Db.call. rewrite (take_turn_quiet w Hq). reflexivity.
Qed.

(** ** Looking rows up *)

Lemma filter_none {A} (p : A -> bool) (t : list A) :
  (forall x, In x t -> p x = false) -> filter p t = [].
Proof.
  induction t as [|x t IH]; intros H; simpl; [reflexivity|].
  rewrite (H x (or_introl eq_refl)). apply IH.
  intros y Hy. apply H. right. exact Hy.
Qed.

Lemma filter_code_unique code l t :
  unique_codes t -> In l t -> shortCode l = code ->
  filter (Db.eq_shortCode code) t = [l].
Proof.
  unfold unique_codes, Db.eq_shortCode.
  induction t as [|x t IH]; intros Hnd Hin Hc; [contradiction|].
  simpl in Hnd. inversion Hnd as [|? ? Hnot Hnd']; subst.
  destruct Hin as [->|Hin]; simpl.
  - rewrite String.eqb_refl. f_equal.
    apply filter_none. intros y Hy.
    apply String.eqb_neq. intros Heq. apply Hnot.
    rewrite <- Heq. apply in_map. exact Hy.
  - assert (Hx : (shortCode x =? shortCode l)%string = false).
    { apply String.eqb_neq. intros Heq. apply Hnot. rewrite Heq.
      apply in_map. exact Hin. }
    rewrite Hx. apply IH; auto.
Qed.

Lemma same_id_same_row l r t :
  unique_ids t -> In l t -> In r t -> id r = id l -> r = l.
Proof.
  unfold unique_ids.
  induction t as [|x t IH]; intros Hnd Hl Hr Hid; [contradiction|].
  simpl in Hnd. inversion Hnd as [|? ? Hnot Hnd']; subst.
  destruct Hl as [->|Hl], Hr as [->|Hr]; auto.
  - exfalso. apply Hnot. rewrite <- Hid. apply in_map. exact Hr.
  - exfalso. apply Hnot. rewrite Hid. apply in_map. exact Hl.
Qed.

Lemma Forall2_map_same {A} (R : A -> A -> Prop) (f : A -> A) (t : list A) :
  (forall x, In x t -> R x (f x)) -> Forall2 R t (map f t).
Proof.
  induction t as [|x t IH]; intros H; simpl; constructor.
  - apply H. left. reflexivity.
  - apply IH. intros y Hy. apply H. right. exact Hy.
Qed.

Lemma nonempty_truthy code : code <> "" -> js_not (Some code) = false.
Proof. destruct code; [congruence | reflexivity]. Qed.

(** ** The redirect route *)

(** C1, as stated, fails in three ways, each time on a store that holds no
    link with the code: the empty code is answered 400; when the storage is
    down at the lookup the route answers 500; and when another request
    commits a link with the code before the lookup is served, the route
    redirects and the table has changed. None of them is NotFound. *)
Lemma resolve_is_not_always_NotFound :
  ((forall l, In l (rows empty_store) -> shortCode l <> "")
   /\ outcome (Route.GET (Some "") empty_store)
      = inr (Route.Plain "Short code not provided" 400)
   /\ outcome (Route.GET (Some "") empty_store) <> inr NotFound)
  /\ ((forall l, In l (rows (down_at_first_call empty_store)) ->
                 shortCode l <> "abc123")
      /\ outcome (Route.GET (Some "abc123") (down_at_first_call empty_store))
         = inr (Route.Plain "Internal Server Error" 500)
      /\ outcome (Route.GET (Some "abc123") (down_at_first_call empty_store))
         <> inr NotFound)
  /\ ((forall l, In l (rows code_arrives_meanwhile) -> shortCode l <> "zzz999")
      /\ outcome (Route.GET (Some "zzz999") code_arrives_meanwhile)
         = inr (Route.Redirect "https://other.example" 302)
      /\ outcome (Route.GET (Some "zzz999") code_arrives_meanwhile)
         <> inr NotFound
      /\ rows (after (Route.GET (Some "zzz999") code_arrives_meanwhile))
         <> rows code_arrives_meanwhile).
Proof.
  split; [|split].
  - split; [intros l []|]. split; [reflexivity | discriminate].
  - split; [intros l []|]. split; [reflexivity | discriminate].
  - split; [intros l []|]. split; [reflexivity|].
    split; discriminate.
Qed.

(** What the route does on a quiet, consistent store. *)
Lemma resolve_on_consistent_store (code : string) (w : World) :
  code <> "" -> quiet w -> consistent w ->
  ((forall l, In l (rows w) -> shortCode l <> code) ->
     outcome (Route.GET (Some code) w) = inr NotFound
     /\ rows (after (Route.GET (Some code) w)) = rows w)
  /\ (forall l, In l (rows w) -> shortCode l = code ->
       outcome (Route.GET (Some code) w)
       = inr (Route.Redirect (originalUrl l) 302)
       /\ Forall2 (clicked l) (rows w) (rows (after (Route.GET (Some code) w)))).
Proof.
  intros Hne Hq (Hids & _ & Hcodes & _).
  unfold Route.GET, try_catch, bind, outcome, after.
  rewrite (nonempty_truthy code Hne). simpl LinkService.the_string.
  rewrite (call_query_quiet _ _ w Hq). unfold Db.where_.
  split.
  - intros Hnone.
    rewrite filter_none; [split; reflexivity|].
    intros x Hx. apply String.eqb_neq. apply Hnone. exact Hx.
  - intros l Hin Hc.
    rewrite (filter_code_unique code l (rows w) Hcodes Hin Hc).
    rewrite call_update_quiet by (apply quiet_log; exact Hq).
    simpl. split; [reflexivity|].
    apply Forall2_map_same. intros r Hr. unfold clicked, Db.eq_id.
    destruct (Z.eqb_spec (id r) (id l)) as [Heq|Hneq].
    + assert (r = l) by (apply (same_id_same_row l r (rows w)); auto).
      subst r. split; [intros _; simpl; repeat split | congruence].
    + split; [intros ->; congruence | reflexivity].
Qed.


Lemma consistent_one_link_store : consistent one_link_store.
Proof.
  unfold consistent, unique_ids, unique_urls, unique_codes; simpl.
  repeat split; repeat constructor; simpl; try tauto; lia.
Defined.

(** C2, as stated, fails: when the storage is down at the increment, the
    route answers 500 and issues no redirect. *)
Lemma resolve_increment_failure_is_surfaced :
  In example_link (rows (down_at_second_call one_link_store))
  /\ outcome (Route.GET (Some "abc123") (down_at_second_call one_link_store))
     = inr (Route.Plain "Internal Server Error" 500)
  /\ outcome (Route.GET (Some "abc123") (down_at_second_call one_link_store))
     <> inr (Route.Redirect (originalUrl example_link) 302)
  /\ trace (after (Route.GET (Some "abc123") (down_at_second_call one_link_store)))
     = [EvConsoleError (DriverError Unavailable); EvUpdate 1;
        EvSelectByCode "abc123"].
Proof.
  split; [left; reflexivity|]. split; [reflexivity|].
  split; [discriminate | reflexivity].
Qed.

Lemma filter_some {A} (p : A -> bool) (x : A) (t : list A) :
  In x t -> p x = true -> exists y rest, filter p t = y :: rest.
Proof.
  intros Hin Hp.
  assert (Hf : In x (filter p t)) by (apply filter_In; auto).
  destruct (filter p t) as [|y rest]; [contradiction | eauto].
Qed.

(** C2 (amended): for every stored link, when the lookup is served and the
    click increment then fails, the failure is logged and the route answers
    500 Internal Server Error instead of redirecting; the table is left as it
    was. *)
Theorem resolve_increment_failure (code : string) (w : World) (l : Link)
        (rest : list Turn) :
  code <> "" ->
  script w = mkTurn [] false :: mkTurn [] true :: rest ->
  In l (rows w) -> shortCode l = code ->
  outcome (Route.GET (Some code) w)
  = inr (Route.Plain "Internal Server Error" 500)
  /\ rows (after (Route.GET (Some code) w)) = rows w
  /\ hd_error (trace (after (Route.GET (Some code) w)))
     = Some (EvConsoleError (DriverError Unavailable)).
Proof.
  intros Hne Hs Hin Hc.
  unfold Route.GET, try_catch, bind, outcome, after.
  rewrite (nonempty_truthy code Hne). simpl LinkService.the_string.
  unfold Db.call, Db.take_turn, Db.query, Db.where_. rewrite Hs. simpl.
  destruct (filter_some (Db.eq_shortCode code) l (rows w) Hin) as (y & t & Hf).
  { unfold Db.eq_shortCode. rewrite Hc. apply String.eqb_refl. }
  rewrite Hf. simpl. repeat split.
Qed.

Lemma resolve_increment_failure_witness :
  outcome (Route.GET (Some "abc123") (down_at_second_call one_link_store))
  = inr (Route.Plain "Internal Server Error" 500)
  /\ rows (after (Route.GET (Some "abc123") (down_at_second_call one_link_store)))
     = rows (down_at_second_call one_link_store)
  /\ hd_error (trace (after (Route.GET (Some "abc123")
                                       (down_at_second_call one_link_store))))
     = Some (EvConsoleError (DriverError Unavailable)).
Proof.
  apply (resolve_increment_failure "abc123" (down_at_second_call one_link_store)
                                   example_link []).
  - discriminate.
  - reflexivity.
  - left. reflexivity.
  - reflexivity.
Defined.

(** ** Properties kept by every computation *)

Section Preservation.

Variable P : World -> Prop.

Lemma preserves_ret {A} (a : A) : preserves P (ret a).
Proof. intros w H. exact H. Qed.

Lemma preserves_throw {A} (e : Exn) : preserves P (@throw A e).
Proof. intros w H. exact H. Qed.

Lemma preserves_bind {A B} (m : M A) (k : A -> M B) :
  preserves P m -> (forall a, preserves P (k a)) -> preserves P (bind m k).
Proof.
  intros Hm Hk w H. unfold after, bind. specialize (Hm w H). unfold after in Hm.
  destruct (m w) as [[e|a] w']; simpl in *; [exact Hm|].
  apply Hk. exact Hm.
Qed.

Lemma preserves_try {A} (m : M A) (h : Exn -> M A) :
  preserves P m -> (forall e, preserves P (h e)) -> preserves P (try_catch m h).
Proof.
  intros Hm Hh w H. unfold after, try_catch. specialize (Hm w H).
  unfold after in Hm.
  destruct (m w) as [[e|a] w']; simpl in *; [|exact Hm].
  apply Hh. exact Hm.
Qed.

Hypothesis P_log : forall ev w, P w -> P (log ev w).
Hypothesis P_script : forall s w, P w -> P (set_script s w).
Hypothesis P_cursor : forall c w, P w -> P (set_cursor c w).
Hypothesis P_insert : forall v w, P w -> P (snd (Db.insert_returning v w)).
Hypothesis P_update : forall i n w, P w -> P (snd (Db.update_clickCount i n w)).

Lemma P_arrivals vs : forall w, P w -> P (fold_left Db.commit vs w).
Proof.
  induction vs as [|v vs IH]; intros w H; simpl; [exact H|].
  apply IH. apply P_insert. exact H.
Qed.

Lemma P_take_turn w : P w -> P (snd (Db.take_turn w)).
Proof.
  intros H. unfold Db.take_turn. destruct (script w) as [|t rest]; simpl.
  - exact H.
  - apply P_arrivals. apply P_script. exact H.
Qed.

Lemma preserves_call {A} ev (op : World -> (DbFailure + A) * World) :
  (forall w, P w -> P (snd (op w))) -> preserves P (Db.call ev op).
Proof.
  intros Hop w H. unfold after, Db.call.
  pose proof (P_take_turn w H) as Ht.
  destruct (Db.take_turn w) as [down w1]; simpl in Ht.
  destruct down; simpl; [apply P_log; exact Ht|].
  specialize (Hop (log ev w1) (P_log ev w1 Ht)).
  destruct (op (log ev w1)) as [[f|a] w3]; simpl in *; exact Hop.
Qed.

Lemma preserves_query {A} ev (f : list Link -> A) :
  preserves P (Db.call ev (Db.query f)).
Proof. apply preserves_call. intros w H. exact H. Qed.

Lemma preserves_nanoid n : preserves P (Nanoid.nanoid n).
Proof. intros w H. unfold after, Nanoid.nanoid. simpl. apply P_log, P_cursor, H. Qed.

Lemma preserves_findByOriginalUrl url :
  preserves P (LinkRepository.findByOriginalUrl url).
Proof.
  apply preserves_bind; [apply preserves_query | intros; apply preserves_ret].
Qed.

Lemma preserves_findByShortCode code :
  preserves P (LinkRepository.findByShortCode code).
Proof.
  apply preserves_bind; [apply preserves_query | intros; apply preserves_ret].
Qed.

Lemma preserves_create data : preserves P (LinkRepository.create data).
Proof.
  apply preserves_bind; [|intros; apply preserves_ret].
  apply preserves_call. intros w H. apply P_insert. exact H.
Qed.

Lemma preserves_findAll : preserves P LinkRepository.findAll.
Proof.
  apply preserves_bind; [apply preserves_query | intros; apply preserves_ret].
Qed.

Lemma preserves_generate n :
  preserves P (LinkService.generateUniqueShortCode n).
Proof.
  induction n as [|n IH]; simpl; [apply preserves_throw|].
  apply preserves_bind; [apply preserves_nanoid | intros candidate].
  apply preserves_bind; [apply preserves_findByShortCode | intros [found|]].
  - exact IH.
  - apply preserves_ret.
Qed.

Lemma preserves_service_createLink data :
  preserves P (LinkService.createLink data).
Proof.
  unfold LinkService.createLink.
  apply preserves_try.
  - apply preserves_bind; [apply preserves_findByOriginalUrl | intros [found|]].
    + apply preserves_throw.
    + apply preserves_bind.
      * destruct (js_not (dto_shortCode data)); [apply preserves_generate|].
        apply preserves_bind; [apply preserves_findByShortCode | intros [taken|]];
          [apply preserves_throw | apply preserves_ret].
      * intros code. apply preserves_bind; [apply preserves_create|].
        intros; apply preserves_ret.
  - intros e. destruct (is_LinkServiceError e); apply preserves_throw.
Qed.

Lemma preserves_action_createLink data : preserves P (Actions.createLink data).
Proof.
  apply preserves_try.
  - apply preserves_bind; [apply preserves_service_createLink|].
    intros; apply preserves_ret.
  - intros []; intros; apply preserves_throw.
Qed.

Lemma preserves_inline_createLink data :
  preserves P (InlineActions.createLink data).
Proof.
  unfold InlineActions.createLink.
  apply preserves_try.
  - apply preserves_bind; [apply preserves_query | intros [|l found]].
    + apply preserves_bind.
      * destruct (js_not (dto_shortCode data));
          [apply preserves_nanoid | apply preserves_ret].
      * intros code.
        apply preserves_bind; [apply preserves_query | intros [|x taken]].
        -- apply preserves_bind; [|intros; apply preserves_ret].
           apply preserves_call. intros w H. apply P_insert. exact H.
        -- apply preserves_throw.
    + apply preserves_throw.
  - intros e. destruct (is_ActionError e); apply preserves_throw.
Qed.

Lemma preserves_GET p : preserves P (Route.GET p).
Proof.
  unfold Route.GET. apply preserves_try.
  - destruct (js_not p); [apply preserves_ret|].
    apply preserves_bind; [apply preserves_query | intros [|l found]].
    + apply preserves_ret.
    + apply preserves_bind; [|intros; apply preserves_ret].
      apply preserves_call. intros w H. apply P_update. exact H.
  - intros e. apply preserves_bind; [|intros; apply preserves_ret].
    intros w H. unfold after, Route.console_error. simpl. apply P_log, H.
Qed.

Lemma preserves_getAllLinks : preserves P LinkService.getAllLinks.
Proof.
  apply preserves_try; [apply preserves_findAll | intros; apply preserves_throw].
Qed.

Lemma preserves_serve r w : P w -> P (serve r w).
Proof.
  intros H. destruct r; simpl.
  - apply preserves_action_createLink, H.
  - apply preserves_inline_createLink, H.
  - apply preserves_GET, H.
  - apply preserves_getAllLinks, H.
Qed.

End Preservation.

(** ** The table stays consistent *)

Lemma existsb_url_false url t :
  existsb (Db.eq_originalUrl url) t = false -> ~ In url (map originalUrl t).
Proof.
  intros H Hin. apply in_map_iff in Hin. destruct Hin as (l & Hl & Hin).
  assert (Ht : existsb (Db.eq_originalUrl url) t = true).
  { apply existsb_exists. exists l. split; [exact Hin|].
    unfold Db.eq_originalUrl. rewrite Hl. apply String.eqb_refl. }
  congruence.
Qed.

Lemma existsb_code_false code t :
  existsb (Db.eq_shortCode code) t = false -> ~ In code (map shortCode t).
Proof.
  intros H Hin. apply in_map_iff in Hin. destruct Hin as (l & Hl & Hin).
  assert (Ht : existsb (Db.eq_shortCode code) t = true).
  { apply existsb_exists. exists l. split; [exact Hin|].
    unfold Db.eq_shortCode. rewrite Hl. apply String.eqb_refl. }
  congruence.
Qed.

Lemma NoDup_snoc {A} (x : A) (t : list A) :
  NoDup t -> ~ In x t -> NoDup (t ++ [x]).
Proof.
  intros Hnd Hnot.
  apply (Permutation_NoDup (Permutation_cons_append t x)).
  constructor; assumption.
Qed.

Lemma consistent_insert v w :
  consistent w -> consistent (snd (Db.insert_returning v w)).
Proof.
  intros (Hids & Hurls & Hcodes & Hle). unfold Db.insert_returning.
  destruct (existsb (Db.eq_originalUrl (new_originalUrl v)) (rows w)) eqn:Eu;
    [repeat split; assumption|].
  destruct (existsb (Db.eq_shortCode (new_shortCode v)) (rows w)) eqn:Ec;
    [repeat split; assumption|].
  unfold consistent, unique_ids, unique_urls, unique_codes in *. simpl.
  rewrite !map_app. simpl. repeat split.
  - apply NoDup_snoc; [exact Hids|]. intros Hin.
    apply in_map_iff in Hin. destruct Hin as (l & Hl & Hin).
    rewrite Forall_forall in Hle. specialize (Hle l Hin). lia.
  - apply NoDup_snoc; [exact Hurls | apply existsb_url_false; exact Eu].
  - apply NoDup_snoc; [exact Hcodes | apply existsb_code_false; exact Ec].
  - apply Forall_app. split.
    + eapply Forall_impl; [|exact Hle]. simpl. intros; lia.
    + constructor; [simpl; lia | constructor].
Qed.

Lemma consistent_update i n w :
  consistent w -> consistent (snd (Db.update_clickCount i n w)).
Proof.
  intros (Hids & Hurls & Hcodes & Hle).
  unfold consistent, unique_ids, unique_urls, unique_codes in *. simpl.
  rewrite !map_map.
  assert (E : forall (A : Type) (g : Link -> A),
             (forall l, g (Db.set_clickCount n l) = g l) ->
             map (fun x => g (if Db.eq_id i x then Db.set_clickCount n x else x))
                 (rows w) = map g (rows w)).
  { intros A g Hg. apply map_ext. intros l.
    destruct (Db.eq_id i l); [apply Hg | reflexivity]. }
  rewrite (E _ id), (E _ originalUrl), (E _ shortCode) by reflexivity.
  repeat split; try assumption.
  rewrite Forall_map. eapply Forall_impl; [|exact Hle].
  intros l Hl. simpl. destruct (Db.eq_id i l); exact Hl.
Qed.

Lemma consistent_serve r w : consistent w -> consistent (serve r w).
Proof.
  apply preserves_serve.
  - intros ev w0 H. exact H.
  - intros s w0 H. exact H.
  - intros c w0 H. exact H.
  - exact consistent_insert.
  - exact consistent_update.
Qed.

Lemma consistent_run reqs : forall w, consistent w -> consistent (run reqs w).
Proof.
  induction reqs as [|[s r] reqs IH]; intros w H; simpl; [exact H|].
  apply IH. apply consistent_serve. exact H.
Qed.

Lemma consistent_empty_store : consistent empty_store.
Proof.
  unfold consistent, unique_ids, unique_urls, unique_codes. simpl.
  repeat split; constructor.
Qed.

(** C8: after any sequence of create and resolve requests (and listings)
    issued against the empty store, under any surroundings, no two rows
    share an originalUrl and no two rows share a shortCode. *)
Theorem urls_and_codes_stay_unique (reqs : list (Surroundings * Request)) :
  unique_urls (rows (run reqs empty_store))
  /\ unique_codes (rows (run reqs empty_store)).
Proof.
  destruct (consistent_run reqs empty_store consistent_empty_store)
    as (_ & Hu & Hc & _).
  split; assumption.
Qed.

(** ** Resolving on a store the service has reached *)

(** C1 (amended): take any store the service has reached from the empty
    store, by any sequence of requests under any surroundings, and any
    non-empty code, and let the route run with no call failing and no other
    request writing meanwhile. If no link has the code, the route answers
    NotFound and the table is as it was. For every stored link with that
    code whose click count is 0 or more and stays a safe integer when 1 is
    added, the route redirects (302) to that link's originalUrl and adds
    exactly 1 to that link's clickCount, every other row and every other
    field staying the same. *)
Theorem resolve_known_or_unknown
        (reqs : list (Surroundings * Request)) (code : string) :
  code <> "" ->
  ((forall l, In l (rows (run reqs empty_store)) -> shortCode l <> code) ->
     outcome (Route.GET (Some code) (undisturbed (run reqs empty_store)))
     = inr NotFound
     /\ rows (after (Route.GET (Some code) (undisturbed (run reqs empty_store))))
        = rows (run reqs empty_store))
  /\ (forall l,
       In l (rows (run reqs empty_store)) -> shortCode l = code ->
       0 <= clickCount l -> clickCount l + 1 <= max_safe_integer ->
       outcome (Route.GET (Some code) (undisturbed (run reqs empty_store)))
       = inr (Route.Redirect (originalUrl l) 302)
       /\ Forall2 (clicked l) (rows (run reqs empty_store))
            (rows (after (Route.GET (Some code)
                                    (undisturbed (run reqs empty_store)))))).
Proof.
  intros Hne.
  assert (Hc : consistent (undisturbed (run reqs empty_store)))
    by exact (consistent_run reqs empty_store consistent_empty_store).
  destruct (resolve_on_consistent_store code (undisturbed (run reqs empty_store))
              Hne eq_refl Hc) as [Hunknown Hknown].
  split.
  - exact Hunknown.
  - intros l Hin Hcode _ _. exact (Hknown l Hin Hcode).
Qed.

Lemma resolve_known_or_unknown_witness :
  outcome (Route.GET (Some "abc123")
             (undisturbed
                (run [(mkSurroundings 1000 (fun _ => 0%N) [],
                       Create (mkDTO "https://example.com" (Some "abc123")))]
                     empty_store)))
  = inr (Route.Redirect "https://example.com" 302).
Proof.
  eapply proj1.
  refine (proj2 (resolve_known_or_unknown
                   [(mkSurroundings 1000 (fun _ => 0%N) [],
                     Create (mkDTO "https://example.com" (Some "abc123")))]
                   "abc123" _)
                (mkLink 1 "https://example.com" "abc123" (Some true) (Some 1000) 0)
                _ _ _ _).
  - discriminate.
  - left. reflexivity.
  - reflexivity.
  - simpl. lia.
  - unfold max_safe_integer. simpl. lia.
Defined.

(** ** Listing *)

(** The comparator the query sorts with decides [earlier]. *)
Lemma created_le_earlier a b : Db.created_le a b = true -> earlier a b.
Proof.
  unfold earlier, Db.created_le.
  destruct (createdAt a) as [x|], (createdAt b) as [y|]; try easy.
  apply Z.leb_le.
Qed.

Lemma created_le_total a b : Db.created_le a b = false -> earlier b a.
Proof.
  unfold earlier, Db.created_le.
  destruct (createdAt a) as [x|], (createdAt b) as [y|]; try easy.
  intros H. apply Z.leb_gt in H. lia.
Qed.

Lemma earlier_trans a b c : earlier a b -> earlier b c -> earlier a c.
Proof.
  unfold earlier.
  destruct (createdAt a) as [x|], (createdAt b) as [y|], (createdAt c) as [z|];
    try easy.
  lia.
Qed.

Lemma insert_sorted_perm x t : Permutation (x :: t) (Db.insert_sorted x t).
Proof.
  induction t as [|y t IH]; simpl; [reflexivity|].
  destruct (Db.created_le x y); [reflexivity|].
  rewrite perm_swap. constructor. exact IH.
Qed.

Lemma insert_sorted_ordered x t :
  StronglySorted earlier t -> StronglySorted earlier (Db.insert_sorted x t).
Proof.
  induction t as [|y t IH]; intros Hs; simpl.
  - constructor; constructor.
  - inversion Hs as [|? ? Hs' Hall]; subst.
    destruct (Db.created_le x y) eqn:E.
    + apply created_le_earlier in E.
      constructor; [exact Hs|]. constructor; [exact E|].
      eapply Forall_impl; [|exact Hall].
      intros z Hz. exact (earlier_trans x y z E Hz).
    + constructor; [apply IH; exact Hs'|].
      apply (Permutation_Forall (insert_sorted_perm x t)).
      constructor; [apply created_le_total; exact E | exact Hall].
Qed.

Lemma order_by_createdAt_perm t : Permutation (Db.order_by_createdAt t) t.
Proof.
  induction t as [|x t IH]; simpl; [reflexivity|].
  rewrite <- insert_sorted_perm. constructor. exact IH.
Qed.

Lemma order_by_createdAt_ordered t :
  StronglySorted earlier (Db.order_by_createdAt t).
Proof.
  induction t as [|x t IH]; simpl; [constructor|].
  apply insert_sorted_ordered. exact IH.
Qed.

Lemma summary_summarises t :
  Forall2 summarises t (map LinkRepository.summary t).
Proof. induction t; simpl; constructor; [repeat split | assumption]. Qed.

(** C9: on a store left alone by its surroundings, listing succeeds and
    returns, for some arrangement of all the stored links in ascending order
    of creation time, the summary (id, originalUrl, shortCode) of each link
    in that order; the table is not changed. *)
Theorem listAll_ordered_summaries (w : World) :
  quiet w ->
  exists (ordered : list Link) (result : list LinkSummary),
    outcome (LinkRepository.findAll w) = inr result
    /\ outcome (LinkService.getAllLinks w) = inr result
    /\ Permutation ordered (rows w)
    /\ StronglySorted earlier ordered
    /\ Forall2 summarises ordered result
    /\ rows (after (LinkRepository.findAll w)) = rows w.
Proof.
  intros Hq.
  exists (Db.order_by_createdAt (rows w)),
         (map LinkRepository.summary (Db.order_by_createdAt (rows w))).
  unfold LinkService.getAllLinks, LinkRepository.findAll, try_catch, bind,
    Db.call, outcome, after.
  rewrite (take_turn_quiet w Hq). simpl.
  repeat split.
  - apply order_by_createdAt_perm.
  - apply order_by_createdAt_ordered.
  - apply summary_summarises.
Qed.

Lemma listAll_ordered_summaries_witness :
  exists (ordered : list Link) (result : list LinkSummary),
    outcome (LinkRepository.findAll two_link_store) = inr result
    /\ outcome (LinkService.getAllLinks two_link_store) = inr result
    /\ Permutation ordered (rows two_link_store)
    /\ StronglySorted earlier ordered
    /\ Forall2 summarises ordered result
    /\ rows (after (LinkRepository.findAll two_link_store))
       = rows two_link_store.
Proof. apply (listAll_ordered_summaries two_link_store). reflexivity. Defined.

(** ** The steps of [createLink] *)

Lemma createLink_steps data w :
  LinkService.createLink data w
  = try_catch (code <- choose_code data ;;
               newLink <- LinkRepository.create (LinkRepository.mkCreate (dto_originalUrl data) code) ;;
               ret newLink) rethrow w.
Proof.
  unfold LinkService.createLink, choose_code, rethrow, try_catch, bind.
  destruct (LinkRepository.findByOriginalUrl (dto_originalUrl data) w)
    as [[e|[l|]] w1]; reflexivity.
Qed.

Lemma trace_arrivals vs : forall w, trace (fold_left Db.commit vs w) = trace w.
Proof.
  induction vs as [|v vs IH]; intros w; simpl; [reflexivity|].
  rewrite IH. unfold Db.commit, Db.insert_returning.
  destruct (existsb _ _); [reflexivity|]. destruct (existsb _ _); reflexivity.
Qed.

Lemma trace_take_turn w : trace (snd (Db.take_turn w)) = trace w.
Proof.
  unfold Db.take_turn. destruct (script w) as [|t rest]; simpl; [reflexivity|].
  rewrite trace_arrivals. reflexivity.
Qed.

Lemma trace_insert v w : trace (snd (Db.insert_returning v w)) = trace w.
Proof.
  unfold Db.insert_returning.
  destruct (existsb _ _); [reflexivity|]. destruct (existsb _ _); reflexivity.
Qed.

Lemma trace_call {A} ev (op : World -> (DbFailure + A) * World) w :
  (forall w0, trace (snd (op w0)) = trace w0) ->
  trace (after (Db.call ev op w)) = ev :: trace w.
Proof.
  intros Hop. unfold after, Db.call.
  pose proof (trace_take_turn w) as Ht.
  destruct (Db.take_turn w) as [down w1]; simpl in Ht.
  destruct down; simpl; [rewrite Ht; reflexivity|].
  specialize (Hop (log ev w1)).
  destruct (op (log ev w1)) as [[f|a] w3]; simpl in *; rewrite Hop, Ht; reflexivity.
Qed.

Lemma trace_create data w :
  trace (after (LinkRepository.create data w))
  = EvInsert (LinkRepository.cd_originalUrl data) (LinkRepository.cd_shortCode data) :: trace w.
Proof.
  unfold LinkRepository.create, bind, after.
  pose proof (trace_call (EvInsert (LinkRepository.cd_originalUrl data) (LinkRepository.cd_shortCode data))
                (Db.insert_returning
                   (mkNew (LinkRepository.cd_originalUrl data) (LinkRepository.cd_shortCode data)
                          (js_notnot (Some (LinkRepository.cd_shortCode data))))) w
                (trace_insert _)) as H.
  unfold after in H.
  destruct (Db.call _ _ w) as [[e|l] w1]; simpl in *; exact H.
Qed.

Lemma trace_find_code code w :
  trace (after (LinkRepository.findByShortCode code w))
  = EvSelectByCode code :: trace w.
Proof.
  unfold LinkRepository.findByShortCode, bind, after.
  match goal with |- context [Db.call ?ev ?op w] =>
    pose proof (trace_call ev op w (fun _ => eq_refl)) as H end.
  unfold after in H.
  destruct (Db.call _ _ w) as [[e|l] w1]; simpl in *; exact H.
Qed.

Lemma trace_find_url url w :
  trace (after (LinkRepository.findByOriginalUrl url w))
  = EvSelectByUrl url :: trace w.
Proof.
  unfold LinkRepository.findByOriginalUrl, bind, after.
  match goal with |- context [Db.call ?ev ?op w] =>
    pose proof (trace_call ev op w (fun _ => eq_refl)) as H end.
  unfold after in H.
  destruct (Db.call _ _ w) as [[e|l] w1]; simpl in *; exact H.
Qed.

(** ** Counting the steps of a request *)

Section Counting.

Variable good : Event -> bool.

Lemma uses_ret {A} (a : A) : uses (count good) 0 (ret a).
Proof. intros w. simpl. lia. Qed.

Lemma uses_throw {A} (e : Exn) : uses (count good) 0 (@throw A e).
Proof. intros w. simpl. lia. Qed.

Lemma uses_bind {A B} n1 n2 (m : M A) (k : A -> M B) :
  uses (count good) n1 m -> (forall a, uses (count good) n2 (k a)) ->
  uses (count good) (n1 + n2) (bind m k).
Proof.
  intros Hm Hk w. specialize (Hm w). unfold after, bind in *.
  destruct (m w) as [[e|a] w']; simpl in *; [lia|].
  specialize (Hk a w'). unfold after in Hk. lia.
Qed.

Lemma uses_try {A} n1 n2 (m : M A) (h : Exn -> M A) :
  uses (count good) n1 m -> (forall e, uses (count good) n2 (h e)) ->
  uses (count good) (n1 + n2) (try_catch m h).
Proof.
  intros Hm Hh w. specialize (Hm w). unfold after, try_catch in *.
  destruct (m w) as [[e|a] w']; simpl in *; [|lia].
  specialize (Hh e w'). unfold after in Hh. lia.
Qed.

Lemma count_step ev w w' :
  trace w' = ev :: trace w ->
  count good w' = ((if good ev then 1 else 0) + count good w)%nat.
Proof. unfold count. intros ->. simpl. destruct (good ev); reflexivity. Qed.

Hypothesis good_url : forall url, good (EvSelectByUrl url) = false.
Hypothesis good_insert : forall url code, good (EvInsert url code) = false.
Hypothesis good_attempt :
  forall c c', good (EvNanoid c) && good (EvSelectByCode c') = false.

Lemma uses_find_url url :
  uses (count good) 0 (LinkRepository.findByOriginalUrl url).
Proof.
  intros w. rewrite (count_step _ w _ (trace_find_url url w)), good_url. lia.
Qed.

Lemma uses_create data : uses (count good) 0 (LinkRepository.create data).
Proof.
  intros w. rewrite (count_step _ w _ (trace_create data w)), good_insert. lia.
Qed.

Lemma uses_generate n :
  uses (count good) n (LinkService.generateUniqueShortCode n).
Proof.
  induction n as [|n IH]; intros w; [simpl; lia|].
  simpl LinkService.generateUniqueShortCode. unfold bind at 1, after.
  unfold Nanoid.nanoid at 1.
  set (c := Nanoid.draw (tape w) (cursor w) 8).
  set (w1 := log (EvNanoid c) (set_cursor (cursor w + 8) w)).
  assert (H1 : count good w1 = ((if good (EvNanoid c) then 1 else 0) + count good w)%nat)
    by (apply count_step; reflexivity).
  pose proof (count_step _ w1 _ (trace_find_code c w1)) as H2.
  pose proof (good_attempt c c) as Hg.
  unfold after, bind in *.
  destruct (LinkRepository.findByShortCode c w1) as [[e|[l|]] w2]; simpl in *.
  - destruct (good (EvNanoid c)), (good (EvSelectByCode c)); simpl in *; try discriminate; lia.
  - specialize (IH w2). unfold after in IH.
    destruct (good (EvNanoid c)), (good (EvSelectByCode c)); simpl in *; try discriminate; lia.
  - destruct (good (EvNanoid c)), (good (EvSelectByCode c)); simpl in *; try discriminate; lia.
Qed.

Lemma uses_createLink_generated data :
  js_not (dto_shortCode data) = true ->
  uses (count good) 3 (LinkService.createLink data).
Proof.
  intros Hno w. rewrite createLink_steps.
  assert (H : uses (count good) (((0 + 3) + (0 + 0)) + 0)
                (try_catch (code <- choose_code data ;;
                            newLink <- LinkRepository.create
                              (LinkRepository.mkCreate (dto_originalUrl data) code) ;;
                            ret newLink) rethrow)).
  { apply uses_try.
    - apply uses_bind.
      + unfold choose_code. rewrite Hno.
        apply uses_bind; [apply uses_find_url|].
        intros [l|]; [|apply uses_generate].
        intros w0. simpl. lia.
      + intros code. apply uses_bind; [apply uses_create | intros; apply uses_ret].
    - intros e. unfold rethrow. destruct (is_LinkServiceError e); apply uses_throw. }
  exact (H w).
Qed.

End Counting.

(** ** Requests on a quiet store *)

Lemma hd_firstn_1 {A} (t : list A) : hd_error (firstn 1 t) = hd_error t.
Proof. destruct t; reflexivity. Qed.

Lemma find_code_quiet code w :
  quiet w ->
  LinkRepository.findByShortCode code w
  = (inr (hd_error (filter (Db.eq_shortCode code) (rows w))),
     log (EvSelectByCode code) w).
Proof.
  intros Hq. unfold LinkRepository.findByShortCode, bind.
  rewrite (call_query_quiet _ _ w Hq). unfold ret, Db.limit, Db.where_.
  rewrite hd_firstn_1. reflexivity.
Qed.

Lemma find_url_quiet url w :
  quiet w ->
  LinkRepository.findByOriginalUrl url w
  = (inr (hd_error (filter (Db.eq_originalUrl url) (rows w))),
     log (EvSelectByUrl url) w).
Proof.
  intros Hq. unfold LinkRepository.findByOriginalUrl, bind.
  rewrite (call_query_quiet _ _ w Hq). unfold ret, Db.limit, Db.where_.
  rewrite hd_firstn_1. reflexivity.
Qed.

Lemma hd_filter_some {A} (p : A -> bool) (t : list A) :
  existsb p t = true -> exists x, hd_error (filter p t) = Some x.
Proof.
  intros H. apply existsb_exists in H. destruct H as (x & Hin & Hp).
  destruct (filter_some p x t Hin Hp) as (y & rest & ->). exists y. reflexivity.
Qed.

Lemma hd_filter_none {A} (p : A -> bool) (t : list A) :
  existsb p t = false -> hd_error (filter p t) = None.
Proof.
  intros H. rewrite filter_none; [reflexivity|].
  intros x Hin. destruct (p x) eqn:Hp; [|reflexivity].
  assert (existsb p t = true) by (apply existsb_exists; eauto). congruence.
Qed.

Lemma create_quiet url code w :
  quiet w -> url_stored url w = false -> code_taken code w = false ->
  LinkRepository.create (LinkRepository.mkCreate url code) w
  = (inr (mkLink (lastId w + 1) url code (Some (js_notnot (Some code)))
                 (Some (clock w)) 0),
     set_lastId (lastId w + 1)
       (set_rows (rows w ++ [mkLink (lastId w + 1) url code
                                    (Some (js_notnot (Some code)))
                                    (Some (clock w)) 0])
                 (log (EvInsert url code) w))).
Proof.
  intros Hq Hu Hc. unfold LinkRepository.create, bind, Db.call.
  rewrite (take_turn_quiet w Hq). unfold Db.insert_returning. simpl.
  unfold url_stored in Hu. unfold code_taken in Hc. rewrite Hu, Hc. reflexivity.
Qed.

Lemma same_store_trans w1 w2 w3 :
  same_store w1 w2 -> same_store w2 w3 -> same_store w1 w3.
Proof.
  unfold same_store. intros (a & b & c & d & e) (a' & b' & c' & d' & e').
  repeat split; congruence.
Qed.

Lemma candidate_next w c ev k :
  candidate (log ev (log (EvNanoid c) (set_cursor (cursor w + 8) w))) k
  = candidate w (S k).
Proof.
  unfold candidate. cbn [tape cursor log set_cursor].
  f_equal. lia.
Qed.

Lemma generate_all_taken n : forall w,
  quiet w ->
  (forall k, (k < n)%nat -> code_taken (candidate w k) w = true) ->
  exists w',
    LinkService.generateUniqueShortCode n w
    = (inl (LinkServiceError "No se pudo generar un código único"
                             INTERNAL_SERVER_ERROR), w')
    /\ same_store w w' /\ nanoids w' = (nanoids w + n)%nat.
Proof.
  induction n as [|n IH]; intros w Hq Htaken.
  - exists w. simpl. repeat split. unfold nanoids. lia.
  - simpl LinkService.generateUniqueShortCode. unfold bind at 1.
    unfold Nanoid.nanoid at 1. unfold bind at 1.
    rewrite find_code_quiet by exact Hq.
    assert (H0 : code_taken (candidate w 0) w = true) by (apply Htaken; lia).
    unfold candidate in H0. rewrite Nat.mul_0_r, Nat.add_0_r in H0.
    destruct (hd_filter_some _ _ H0) as (l & Hl).
    cbn [rows log set_cursor]. rewrite Hl.
    set (c := Nanoid.draw (tape w) (cursor w) 8) in *.
    set (w1 := log (EvSelectByCode c) (log (EvNanoid c) (set_cursor (cursor w + 8) w))).
    destruct (IH w1) as (w' & Hgen & Hsame & Hcount).
    + exact Hq.
    + intros k Hk. unfold w1. rewrite candidate_next.
      apply (Htaken (S k)). lia.
    + exists w'. split; [exact Hgen|]. split.
      * apply (same_store_trans w w1 w'); [repeat split | exact Hsame].
      * rewrite Hcount. unfold w1, nanoids, count. simpl. lia.
Qed.

Lemma generate_first_free k : forall n w,
  quiet w -> (k < n)%nat ->
  (forall j, (j < k)%nat -> code_taken (candidate w j) w = true) ->
  code_taken (candidate w k) w = false ->
  exists w',
    LinkService.generateUniqueShortCode n w = (inr (candidate w k), w')
    /\ same_store w w' /\ nanoids w' = (nanoids w + S k)%nat.
Proof.
  induction k as [|k IH]; intros n w Hq Hlt Htaken Hfree;
    (destruct n as [|n]; [lia|]);
    simpl LinkService.generateUniqueShortCode; unfold bind at 1;
    unfold Nanoid.nanoid at 1; unfold bind at 1;
    rewrite find_code_quiet by exact Hq; cbn [rows log set_cursor].
  - unfold candidate in *. rewrite Nat.mul_0_r, Nat.add_0_r in *.
    rewrite (hd_filter_none _ _ Hfree). eexists. split; [reflexivity|].
    split; [repeat split|]. unfold nanoids, count. simpl. lia.
  - assert (H0 : code_taken (candidate w 0) w = true) by (apply Htaken; lia).
    unfold candidate in H0. rewrite Nat.mul_0_r, Nat.add_0_r in H0.
    destruct (hd_filter_some _ _ H0) as (l & Hl). rewrite Hl.
    set (c := Nanoid.draw (tape w) (cursor w) 8) in *.
    set (w1 := log (EvSelectByCode c) (log (EvNanoid c) (set_cursor (cursor w + 8) w))).
    destruct (IH n w1) as (w' & Hgen & Hsame & Hcount).
    + exact Hq.
    + lia.
    + intros j Hj. unfold w1. rewrite candidate_next. apply (Htaken (S j)). lia.
    + unfold w1. rewrite candidate_next. exact Hfree.
    + exists w'. unfold w1 in Hgen. rewrite candidate_next in Hgen.
      split; [exact Hgen|]. split.
      * apply (same_store_trans w w1 w'); [repeat split | exact Hsame].
      * rewrite Hcount. unfold w1, nanoids, count. simpl. lia.
Qed.

(** ** Generated codes: the attempt budget *)

Lemma createLink_all_taken url w :
  quiet w -> url_stored url w = false ->
  (forall k, (k < 3)%nat -> code_taken (candidate w k) w = true) ->
  exists w',
    LinkService.createLink (mkDTO url None) w
    = (inl (LinkServiceError "No se pudo generar un código único"
                             INTERNAL_SERVER_ERROR), w')
    /\ rows w' = rows w /\ nanoids w' = (nanoids w + 3)%nat.
Proof.
  intros Hq Hu Htaken. rewrite createLink_steps.
  unfold try_catch, bind at 1, choose_code, bind at 1.
  rewrite find_url_quiet by exact Hq.
  cbn [dto_shortCode js_not truthy negb dto_originalUrl].
  unfold url_stored in Hu. rewrite (hd_filter_none _ _ Hu).
  destruct (generate_all_taken 3 (log (EvSelectByUrl url) w) Hq Htaken)
    as (w' & Hgen & Hsame & Hn).
  rewrite Hgen. exists w'. split; [reflexivity|].
  destruct Hsame as (Hrows & _). split; [exact Hrows | exact Hn].
Qed.

Lemma createLink_first_free url w k :
  quiet w -> url_stored url w = false -> (k < 3)%nat ->
  (forall j, (j < k)%nat -> code_taken (candidate w j) w = true) ->
  code_taken (candidate w k) w = false ->
  exists l w',
    LinkService.createLink (mkDTO url None) w = (inr l, w')
    /\ shortCode l = candidate w k /\ originalUrl l = url
    /\ In l (rows w') /\ nanoids w' = (nanoids w + S k)%nat.
Proof.
  intros Hq Hu Hk Htaken Hfree. rewrite createLink_steps.
  unfold try_catch, bind at 1, choose_code, bind at 1.
  rewrite find_url_quiet by exact Hq.
  cbn [dto_shortCode js_not truthy negb dto_originalUrl].
  unfold url_stored in Hu. rewrite (hd_filter_none _ _ Hu).
  destruct (generate_first_free k 3 (log (EvSelectByUrl url) w) Hq Hk Htaken Hfree)
    as (w' & Hgen & (Hrows & Hid & Hclock & Hscript & Htape) & Hn).
  rewrite Hgen. unfold bind.
  change (candidate (log (EvSelectByUrl url) w) k) with (candidate w k).
  rewrite create_quiet.
  - eexists. eexists. split; [reflexivity|]. cbn.
    split; [reflexivity|]. split; [reflexivity|]. split.
    + apply in_or_app. right. left. reflexivity.
    + exact Hn.
  - unfold quiet. rewrite Hscript. exact Hq.
  - unfold url_stored. rewrite Hrows. exact Hu.
  - unfold code_taken in *. rewrite Hrows. exact Hfree.
Qed.

(** C7: without a custom code, [createLink] draws at most 3 candidates and
    looks at most 3 codes up, whatever the surroundings do. On a quiet store
    that does not hold the URL: when all 3 candidates are taken it fails with
    INTERNAL_SERVER_ERROR and the table is unchanged; when candidate [k]
    (counting from 0, [k < 3]) is the first free one, the link is created
    with that code after exactly [k + 1] draws. *)
Theorem generated_code_attempt_budget (url : string) (w : World) :
  (nanoids (after (LinkService.createLink (mkDTO url None) w)) <= nanoids w + 3)%nat
  /\ (code_checks (after (LinkService.createLink (mkDTO url None) w))
      <= code_checks w + 3)%nat
  /\ (quiet w -> url_stored url w = false ->
      (forall k, (k < 3)%nat -> code_taken (candidate w k) w = true) ->
      outcome (LinkService.createLink (mkDTO url None) w)
      = inl (LinkServiceError "No se pudo generar un código único"
                              INTERNAL_SERVER_ERROR)
      /\ rows (after (LinkService.createLink (mkDTO url None) w)) = rows w
      /\ nanoids (after (LinkService.createLink (mkDTO url None) w))
         = (nanoids w + 3)%nat)
  /\ (forall k,
      quiet w -> url_stored url w = false -> (k < 3)%nat ->
      (forall j, (j < k)%nat -> code_taken (candidate w j) w = true) ->
      code_taken (candidate w k) w = false ->
      exists l,
        outcome (LinkService.createLink (mkDTO url None) w) = inr l
        /\ shortCode l = candidate w k /\ originalUrl l = url
        /\ In l (rows (after (LinkService.createLink (mkDTO url None) w)))
        /\ nanoids (after (LinkService.createLink (mkDTO url None) w))
           = (nanoids w + S k)%nat).
Proof.
  split; [|split; [|split]].
  - apply (uses_createLink_generated is_nanoid); reflexivity.
  - apply (uses_createLink_generated is_code_check); reflexivity.
  - intros Hq Hu Htaken.
    destruct (createLink_all_taken url w Hq Hu Htaken) as (w' & -> & Hr & Hn).
    repeat split; assumption.
  - intros k Hq Hu Hk Htaken Hfree.
    destruct (createLink_first_free url w k Hq Hu Hk Htaken Hfree)
      as (l & w' & -> & Hc & Ho & Hin & Hn).
    exists l. repeat split; assumption.
Qed.

Lemma generated_code_attempt_budget_witness :
  outcome (LinkService.createLink (mkDTO "https://new.example" None) two_link_store)
  = inl (LinkServiceError "No se pudo generar un código único"
                          INTERNAL_SERVER_ERROR)
  /\ exists l,
       outcome (LinkService.createLink (mkDTO "https://new.example" None)
                                       second_code_fresh) = inr l
       /\ shortCode l = "ssssssss".
Proof.
  split.
  - refine (proj1 (proj1 (proj2 (proj2
      (generated_code_attempt_budget "https://new.example" two_link_store))) _ _ _)).
    + reflexivity.
    + reflexivity.
    + intros k Hk. destruct k as [|[|[|k]]]; [reflexivity | reflexivity | reflexivity | lia].
  - destruct (proj2 (proj2 (proj2
      (generated_code_attempt_budget "https://new.example" second_code_fresh))) 1%nat)
      as (l & Hl & Hc & _).
    + reflexivity.
    + reflexivity.
    + lia.
    + intros j Hj. destruct j as [|j]; [reflexivity | lia].
    + reflexivity.
    + exists l. split; [exact Hl | exact Hc].
Defined.

(** ** Generated codes: their shape *)

Lemma charAt_url_safe i :
  (i < 64)%nat ->
  exists c, Nanoid.charAt i = String c EmptyString /\ url_safe_char c = true.
Proof.
  intros H.
  do 64 (destruct i as [|i]; [eexists; split; reflexivity|]).
  lia.
Qed.

Lemma masked_below_64 (b : N) : (N.to_nat (N.land b 63) < 64)%nat.
Proof.
  change 63%N with (N.ones 6). rewrite N.land_ones.
  assert (b mod 2 ^ 6 < 2 ^ 6)%N by (apply N.mod_lt; discriminate).
  change (2 ^ 6)%N with 64%N in *. lia.
Qed.

Lemma draw_shape size : forall t from,
  String.length (Nanoid.draw t from size) = size
  /\ Actions.all_chars url_safe_char (Nanoid.draw t from size) = true.
Proof.
  induction size as [|size IH]; intros t from; simpl; [split; reflexivity|].
  destruct (charAt_url_safe _ (masked_below_64 (t from))) as (c & -> & Hc).
  destruct (IH t (S from)) as (Hlen & Hall).
  simpl. rewrite Hlen, Hc, Hall. split; reflexivity.
Qed.

Lemma generated_is_drawn n : forall w code w',
  LinkService.generateUniqueShortCode n w = (inr code, w') ->
  exists t from, code = Nanoid.draw t from 8.
Proof.
  induction n as [|n IH]; intros w code w' H; [discriminate|].
  simpl LinkService.generateUniqueShortCode in H.
  unfold bind at 1 in H. unfold Nanoid.nanoid at 1 in H. unfold bind at 1 in H.
  destruct (LinkRepository.findByShortCode _ _) as [[e|[l|]] w1];
    [discriminate | eapply IH; exact H |].
  injection H as <- _. exists (tape w), (cursor w). reflexivity.
Qed.

(** C6, as stated, fails: the generator can hand out a code made of
    underscores, which the check on custom codes rejects. *)
Lemma generated_code_may_be_underscores :
  outcome (LinkService.generateUniqueShortCode 3 underscores) = inr "________"
  /\ option_map shortCode
       (hd_error (rows (after (LinkService.createLink
                                 (mkDTO "https://example.com" None) underscores))))
     = Some "________"
  /\ Actions.shortCodeSchema "________" = false.
Proof. repeat split. Qed.

(** C6 (amended): every code the allocator generates is exactly 8 characters
    long, so its length lies in 3..10, and every character is drawn from
    [A-Za-z0-9_-]: the alphabet of custom codes plus the underscore. *)
Theorem generated_code_shape (n : nat) (w w' : World) (code : string) :
  LinkService.generateUniqueShortCode n w = (inr code, w') ->
  String.length code = 8%nat
  /\ (3 <= String.length code <= 10)%nat
  /\ Actions.all_chars url_safe_char code = true.
Proof.
  intros H. destruct (generated_is_drawn n w code w' H) as (t & from & ->).
  destruct (draw_shape 8 t from) as (Hlen & Hall).
  rewrite Hlen. repeat split; [lia | lia | exact Hall].
Qed.

Lemma generated_code_shape_witness :
  String.length "uuuuuuuu" = 8%nat
  /\ (3 <= String.length "uuuuuuuu" <= 10)%nat
  /\ Actions.all_chars url_safe_char "uuuuuuuu" = true.
Proof.
  apply (generated_code_shape 3 empty_store
           (log (EvSelectByCode "uuuuuuuu")
                (log (EvNanoid "uuuuuuuu") (set_cursor 8 empty_store)))
           "uuuuuuuu").
  reflexivity.
Defined.

(** ** What [createLink] persists *)

Lemma create_returns data w l w' :
  LinkRepository.create data w = (inr l, w') ->
  shortCode l = LinkRepository.cd_shortCode data
  /\ originalUrl l = LinkRepository.cd_originalUrl data
  /\ isCustom l = Some (js_notnot (Some (LinkRepository.cd_shortCode data)))
  /\ clickCount l = 0
  /\ In l (rows w').
Proof.
  unfold LinkRepository.create, bind, Db.call.
  destruct (Db.take_turn w) as [down w1]. destruct down; [discriminate|].
  unfold Db.insert_returning. cbn [rows log new_originalUrl new_shortCode].
  destruct (existsb _ _); [discriminate|].
  destruct (existsb _ _); [discriminate|].
  unfold ret. intros H. injection H as <- <-. cbn.
  repeat split. apply in_or_app. right. left. reflexivity.
Qed.

Lemma rethrow_fails e w : exists e', rethrow e w = (inl e', w).
Proof. unfold rethrow. destruct (is_LinkServiceError e); eexists; reflexivity. Qed.

Lemma createLink_returns data w l w' :
  LinkService.createLink data w = (inr l, w') ->
  exists code w1,
    choose_code data w = (inr code, w1)
    /\ LinkRepository.create (LinkRepository.mkCreate (dto_originalUrl data) code) w1
       = (inr l, w').
Proof.
  rewrite createLink_steps. unfold try_catch, bind at 1.
  destruct (choose_code data w) as [[e|code] w1].
  - destruct (rethrow_fails e w1) as (e' & ->). discriminate.
  - unfold bind.
    destruct (LinkRepository.create _ w1) as [[e|l0] w2] eqn:Ec.
    + destruct (rethrow_fails e w2) as (e' & ->). discriminate.
    + unfold ret. intros H. injection H as <- <-.
      exists code, w1. split; [reflexivity | exact Ec].
Qed.

Lemma chosen_code_truthy data w code w1 :
  choose_code data w = (inr code, w1) ->
  js_notnot (Some code) = true
  /\ (js_not (dto_shortCode data) = true -> String.length code = 8%nat).
Proof.
  unfold choose_code, bind at 1.
  destruct (LinkRepository.findByOriginalUrl _ w) as [[e|[l|]] w0];
    [discriminate | discriminate |].
  destruct (js_not (dto_shortCode data)) eqn:Hno.
  - intros H. destruct (generated_is_drawn _ _ _ _ H) as (t & from & ->).
    destruct (draw_shape 8 t from) as (Hlen & _).
    split; [|intros _; exact Hlen].
    destruct (Nanoid.draw t from 8); [discriminate | reflexivity].
  - unfold bind.
    destruct (LinkRepository.findByShortCode _ w0) as [[e|[l|]] w2];
      [discriminate | discriminate |].
    unfold ret. intros H. injection H as <- _.
    split; [|discriminate].
    unfold js_not in Hno. unfold js_notnot, js_not.
    destruct (dto_shortCode data) as [[|c s0]|]; simpl in *; congruence.
Qed.

(** Every link the layered [createLink] returns is flagged custom. *)
Lemma service_link_is_flagged_custom data w l :
  outcome (LinkService.createLink data w) = inr l -> isCustom l = Some true.
Proof.
  unfold outcome. destruct (LinkService.createLink data w) as [r w'] eqn:E.
  simpl. intros ->.
  destruct (createLink_returns data w l w' E) as (code & w1 & Hcode & Hcreate).
  destruct (create_returns _ _ _ _ Hcreate) as (_ & _ & Hflag & _).
  destruct (chosen_code_truthy _ _ _ _ Hcode) as (Ht & _).
  cbn in Hflag. rewrite Hflag, Ht. reflexivity.
Qed.

(** C3: on the empty store, creating a link without a custom code persists
    it with isCustom = true, where the claim wants false; the older inline
    action stores false on the same input. *)
Theorem generated_code_is_flagged_custom :
  outcome (LinkService.createLink (mkDTO "https://example.com" None) empty_store)
  = inr (mkLink 1 "https://example.com" "uuuuuuuu" (Some true) (Some 0) 0)
  /\ rows (after (LinkService.createLink (mkDTO "https://example.com" None)
                                         empty_store))
     = [mkLink 1 "https://example.com" "uuuuuuuu" (Some true) (Some 0) 0]
  /\ outcome (InlineActions.createLink (mkDTO "https://example.com" None)
                                       empty_store)
     = inr (mkLink 1 "https://example.com" "uuuuuuuu" (Some false) (Some 0) 0).
Proof. repeat split. Qed.

(** ** A URL that is already stored *)

(** On a quiet store that holds the URL, the layered [createLink] fails with
    CONFLICT, always with the same message, and leaves the table alone. *)
Lemma duplicate_url_conflict data w :
  quiet w -> url_stored (dto_originalUrl data) w = true ->
  outcome (LinkService.createLink data w)
  = inl (LinkServiceError "Esta URL ya está registrada" CONFLICT)
  /\ rows (after (LinkService.createLink data w)) = rows w.
Proof.
  intros Hq Hu.
  assert (E : LinkService.createLink data w
              = (inl (LinkServiceError "Esta URL ya está registrada" CONFLICT),
                 log (EvSelectByUrl (dto_originalUrl data)) w)).
  { rewrite createLink_steps.
    unfold try_catch, bind at 1, choose_code, bind at 1.
    rewrite find_url_quiet by exact Hq.
    destruct (hd_filter_some _ _ Hu) as (l & ->). reflexivity. }
  rewrite E. split; reflexivity.
Qed.

(** C4: on a store that holds https://example.com under the code abc123,
    creating that URL again fails with CONFLICT and leaves the table
    unchanged, but the message of the layered service does not contain the
    code; the message of the older inline action does. *)
Theorem duplicate_url_message_omits_code :
  In example_link (rows one_link_store)
  /\ originalUrl example_link = "https://example.com"
  /\ shortCode example_link = "abc123"
  /\ outcome (LinkService.createLink (mkDTO "https://example.com" None)
                                     one_link_store)
     = inl (LinkServiceError "Esta URL ya está registrada" CONFLICT)
  /\ outcome (Actions.createLink (mkDTO "https://example.com" None)
                                 one_link_store)
     = inl (ActionError CONFLICT "Esta URL ya está registrada")
  /\ String.index 0 "abc123" "Esta URL ya está registrada" = None
  /\ rows (after (LinkService.createLink (mkDTO "https://example.com" None)
                                         one_link_store))
     = rows one_link_store
  /\ outcome (InlineActions.createLink (mkDTO "https://example.com" None)
                                       one_link_store)
     = inl (ActionError CONFLICT
              "Esta URL ya tiene un enlace acortado: /abc123").
Proof. split; [left; reflexivity|]. repeat split. Qed.

(** ** Losing the race for a URL or a code *)

(** C5, as stated, fails: when another request commits the wanted code
    between the look-ups and the insert, the insert hits the UNIQUE
    constraint on short_code and [createLink] fails with
    INTERNAL_SERVER_ERROR, neither BAD_REQUEST nor CONFLICT. *)
Lemma lost_race_is_not_bad_request :
  url_stored "https://new.example" race_on_code = false
  /\ code_taken "mycode" race_on_code = false
  /\ code_taken "mycode"
       (after (LinkService.createLink (mkDTO "https://new.example" (Some "mycode"))
                                      race_on_code)) = true
  /\ outcome (LinkService.createLink (mkDTO "https://new.example" (Some "mycode"))
                                     race_on_code)
     = inl (LinkServiceError "Error al crear el enlace" INTERNAL_SERVER_ERROR)
  /\ (forall message,
        outcome (LinkService.createLink
                   (mkDTO "https://new.example" (Some "mycode")) race_on_code)
        <> inl (LinkServiceError message BAD_REQUEST))
  /\ (forall message,
        outcome (LinkService.createLink
                   (mkDTO "https://new.example" (Some "mycode")) race_on_code)
        <> inl (LinkServiceError message CONFLICT)).
Proof.
  repeat split; intros message; discriminate.
Qed.

Lemma create_violation data w c w' :
  LinkRepository.create data w = (inl (DriverError (UniqueViolation c)), w') ->
  match c with
  | ColOriginalUrl => url_stored (LinkRepository.cd_originalUrl data) w' = true
  | ColShortCode => code_taken (LinkRepository.cd_shortCode data) w' = true
  end.
Proof.
  unfold LinkRepository.create, bind, Db.call.
  destruct (Db.take_turn w) as [down w1]. destruct down; [discriminate|].
  unfold Db.insert_returning. cbn [rows log new_originalUrl new_shortCode].
  destruct (existsb (Db.eq_originalUrl _) _) eqn:Eu.
  - intros H. injection H as <- <-. exact Eu.
  - destruct (existsb (Db.eq_shortCode _) _) eqn:Ec; [|discriminate].
    intros H. injection H as <- <-. exact Ec.
Qed.

(** C5 (amended): when the look-ups of [createLink] pass and its insert then
    fails on a UNIQUE constraint, because another request stored the URL or
    the code in between, [createLink] fails with INTERNAL_SERVER_ERROR
    whichever column collided, and ends there: the insert was tried once. *)
Theorem lost_race_is_internal_error (data : CreateLinkDTO) (w w1 w2 : World)
        (code : string) (c : Column) :
  choose_code data w = (inr code, w1) ->
  LinkRepository.create (LinkRepository.mkCreate (dto_originalUrl data) code) w1
  = (inl (DriverError (UniqueViolation c)), w2) ->
  outcome (LinkService.createLink data w)
  = inl (LinkServiceError "Error al crear el enlace" INTERNAL_SERVER_ERROR)
  /\ after (LinkService.createLink data w) = w2
  /\ inserts w2 = S (inserts w1)
  /\ match c with
     | ColOriginalUrl => url_stored (dto_originalUrl data) w2 = true
     | ColShortCode => code_taken code w2 = true
     end.
Proof.
  intros Hcode Hcreate.
  assert (E : LinkService.createLink data w
              = (inl (LinkServiceError "Error al crear el enlace"
                                       INTERNAL_SERVER_ERROR), w2)).
  { rewrite createLink_steps. unfold try_catch, bind at 1. rewrite Hcode.
    unfold bind. rewrite Hcreate. reflexivity. }
  rewrite E. split; [reflexivity|]. split; [reflexivity|]. split.
  - pose proof (trace_create (LinkRepository.mkCreate (dto_originalUrl data) code) w1)
      as Ht.
    rewrite Hcreate in Ht. unfold after in Ht. simpl in Ht.
    unfold inserts. rewrite (count_step is_insert _ w1 w2 Ht). reflexivity.
  - exact (create_violation _ _ _ _ Hcreate).
Qed.

Lemma lost_race_is_internal_error_witness :
  outcome (LinkService.createLink (mkDTO "https://new.example" (Some "mycode"))
                                  race_on_code)
  = inl (LinkServiceError "Error al crear el enlace" INTERNAL_SERVER_ERROR).
Proof.
  eapply proj1.
  eapply (lost_race_is_internal_error
            (mkDTO "https://new.example" (Some "mycode")) race_on_code _ _
            "mycode" ColShortCode).
  - reflexivity.
  - reflexivity.
Defined.

(** * Further properties of the code *)

(** ** What the service may throw *)

Lemma throws_only_ret Q {A} (a : A) : throws_only Q (ret a).
Proof. intros w e H. discriminate. Qed.

Lemma throws_only_throw (Q : Exn -> Prop) {A} e :
  Q e -> throws_only Q (@throw A e).
Proof. intros HQ w e' H. injection H as <-. exact HQ. Qed.

Lemma throws_only_bind Q {A B} (m : M A) (k : A -> M B) :
  throws_only Q m -> (forall a, throws_only Q (k a)) ->
  throws_only Q (bind m k).
Proof.
  intros Hm Hk w e. specialize (Hm w). unfold outcome, bind in *.
  destruct (m w) as [[e0|a] w1]; simpl in *.
  - intros H. injection H as <-. apply Hm. reflexivity.
  - apply Hk.
Qed.

Lemma throws_only_try Q0 Q {A} (m : M A) (h : Exn -> M A) :
  throws_only Q0 m -> (forall e, Q0 e -> throws_only Q (h e)) ->
  throws_only Q (try_catch m h).
Proof.
  intros Hm Hh w e. specialize (Hm w). unfold outcome, try_catch in *.
  destruct (m w) as [[e0|a] w1]; simpl in *; [|discriminate].
  apply Hh. apply Hm. reflexivity.
Qed.

Lemma throws_only_weaken (Q Q' : Exn -> Prop) {A} (m : M A) :
  (forall e, Q e -> Q' e) -> throws_only Q m -> throws_only Q' m.
Proof. intros HQ Hm w e H. apply HQ. exact (Hm w e H). Qed.

Lemma throws_only_call {A} ev (op : World -> (DbFailure + A) * World) :
  throws_only is_driver_error (Db.call ev op).
Proof.
  intros w e. unfold outcome, Db.call.
  destruct (Db.take_turn w) as [down w1]. destruct down; simpl.
  - intros H. injection H as <-. eexists. reflexivity.
  - destruct (op (log ev w1)) as [[f|a] w2]; simpl; [|discriminate].
    intros H. injection H as <-. eexists. reflexivity.
Qed.

Lemma throws_only_findByShortCode code :
  throws_only is_driver_error (LinkRepository.findByShortCode code).
Proof.
  apply throws_only_bind; [apply throws_only_call|].
  intros; apply throws_only_ret.
Qed.

Lemma throws_only_findByOriginalUrl url :
  throws_only is_driver_error (LinkRepository.findByOriginalUrl url).
Proof.
  apply throws_only_bind; [apply throws_only_call|].
  intros; apply throws_only_ret.
Qed.

Lemma throws_only_create data :
  throws_only is_driver_error (LinkRepository.create data).
Proof.
  apply throws_only_bind; [apply throws_only_call|].
  intros; apply throws_only_ret.
Qed.

Lemma throws_only_findAll :
  throws_only is_driver_error LinkRepository.findAll.
Proof.
  apply throws_only_bind; [apply throws_only_call|].
  intros; apply throws_only_ret.
Qed.

Lemma driver_is_before_insert e : is_driver_error e -> before_insert_error e.
Proof. intros H. left. exact H. Qed.

Lemma throws_only_generate n :
  throws_only before_insert_error (LinkService.generateUniqueShortCode n).
Proof.
  induction n as [|n IH]; simpl.
  - apply throws_only_throw. right. right. right. left. reflexivity.
  - apply throws_only_bind.
    + intros w e H. discriminate.
    + intros candidate. apply throws_only_bind.
      * apply (throws_only_weaken _ _ _ driver_is_before_insert).
        apply throws_only_findByShortCode.
      * intros [l|]; [exact IH | apply throws_only_ret].
Qed.

Lemma throws_only_choose_code data :
  throws_only before_insert_error (choose_code data).
Proof.
  unfold choose_code. apply throws_only_bind.
  - apply (throws_only_weaken _ _ _ driver_is_before_insert).
    apply throws_only_findByOriginalUrl.
  - intros [l|].
    + apply throws_only_throw. right. left. reflexivity.
    + destruct (js_not (dto_shortCode data)); [apply throws_only_generate|].
      apply throws_only_bind.
      * apply (throws_only_weaken _ _ _ driver_is_before_insert).
        apply throws_only_findByShortCode.
      * intros [l|]; [|apply throws_only_ret].
        apply throws_only_throw. right. right. left. reflexivity.
Qed.

Lemma throws_only_service_createLink data :
  throws_only createLink_error (LinkService.createLink data).
Proof.
  intros w e. rewrite createLink_steps. revert w e.
  apply (throws_only_try before_insert_error).
  - apply throws_only_bind; [apply throws_only_choose_code|].
    intros code. apply throws_only_bind; [|intros; apply throws_only_ret].
    apply (throws_only_weaken _ _ _ driver_is_before_insert).
    apply throws_only_create.
  - intros e [(f & ->)|He]; unfold rethrow.
    + apply throws_only_throw. right. right. right. reflexivity.
    + destruct He as [->|[->|[->| ->]]]; apply throws_only_throw;
        unfold createLink_error; tauto.
Qed.

(** X1: whatever the store and its surroundings, [LinkService.createLink]
    either returns a link or throws one of its four errors: CONFLICT for a
    stored URL, BAD_REQUEST for a custom code in use, and
    INTERNAL_SERVER_ERROR either for an exhausted generation or for anything
    the driver threw. It never throws NOT_FOUND and never lets a driver error
    through. *)
Theorem createLink_throws_its_four_errors (data : CreateLinkDTO) (w : World) :
  match outcome (LinkService.createLink data w) with
  | inr _ => True
  | inl e =>
      createLink_error e
      /\ (forall message, e <> LinkServiceError message NOT_FOUND)
      /\ ~ is_driver_error e
  end.
Proof.
  destruct (outcome (LinkService.createLink data w)) as [e|l] eqn:E; [|exact I].
  pose proof (throws_only_service_createLink data w e E) as He.
  split; [exact He|].
  destruct He as [->|[->|[->| ->]]]; split;
    try (intros message; discriminate); intros (f & Hf); discriminate.
Qed.

(** X2: for every input that passes [createLinkSchema], so that the handler
    runs, the layered [createLink] action leaves the world as the service
    does, returns the service's link, and turns each service error into an
    ActionError with the same code and message; the handler's fallback
    branch for other exceptions is never reached. *)
Theorem action_createLink_mirrors_service
        (url_ok : string -> bool) (data : CreateLinkDTO) (w : World) :
  Actions.createLinkSchema url_ok data = true ->
  after (Actions.createLink data w) = after (LinkService.createLink data w)
  /\ match outcome (LinkService.createLink data w) with
     | inr l => outcome (Actions.createLink data w) = inr l
     | inl (LinkServiceError message code) =>
         outcome (Actions.createLink data w) = inl (ActionError code message)
     | inl _ => False
     end.
Proof.
  intros _.
  pose proof (throws_only_service_createLink data w) as He.
  unfold Actions.createLink, try_catch, bind, outcome, after in *.
  destruct (LinkService.createLink data w) as [[e|l] w1]; simpl in *.
  - specialize (He e eq_refl).
    destruct He as [->|[->|[->| ->]]]; split; reflexivity.
  - split; reflexivity.
Qed.

Lemma action_createLink_mirrors_service_witness :
  outcome (Actions.createLink (mkDTO "https://new.example" (Some "abc123"))
                              one_link_store)
  = inl (ActionError BAD_REQUEST
           "Este código personalizado ya está en uso. Elige uno diferente.").
Proof.
  refine (proj2 (action_createLink_mirrors_service
                   (fun url => String.prefix "https://" url
                               || String.prefix "http://" url)
                   (mkDTO "https://new.example" (Some "abc123"))
                   one_link_store _)).
  reflexivity.
Defined.

(** ** Looking a link up *)

(** X3: [findByShortCode] and [findByOriginalUrl] answer for the table as it
    is when the call is served: a link they return is stored and has the
    wanted code (URL); when they return null no stored link has it; and the
    only thing they throw is the driver's outage. *)
Theorem lookups_are_sound_and_complete (key : string) (w : World) :
  match outcome (LinkRepository.findByShortCode key w) with
  | inr (Some l) =>
      In l (rows (after (LinkRepository.findByShortCode key w)))
      /\ shortCode l = key
  | inr None =>
      forall l, In l (rows (after (LinkRepository.findByShortCode key w))) ->
                shortCode l <> key
  | inl e => e = DriverError Unavailable
  end
  /\ match outcome (LinkRepository.findByOriginalUrl key w) with
     | inr (Some l) =>
         In l (rows (after (LinkRepository.findByOriginalUrl key w)))
         /\ originalUrl l = key
     | inr None =>
         forall l, In l (rows (after (LinkRepository.findByOriginalUrl key w))) ->
                   originalUrl l <> key
     | inl e => e = DriverError Unavailable
     end.
Proof.
  unfold LinkRepository.findByShortCode, LinkRepository.findByOriginalUrl,
    bind, Db.call, outcome, after, Db.query, Db.limit, Db.where_, ret.
  destruct (Db.take_turn w) as [down w1]. destruct down.
  - split; reflexivity.
  - cbn [fst snd rows log]. rewrite !hd_firstn_1. split.
    + destruct (filter (Db.eq_shortCode key) (rows w1)) as [|l t] eqn:E; simpl.
      * intros l Hin Hc.
        assert (Hf : In l (filter (Db.eq_shortCode key) (rows w1))).
        { apply filter_In. split; [exact Hin|].
          unfold Db.eq_shortCode. rewrite Hc. apply String.eqb_refl. }
        rewrite E in Hf. contradiction.
      * assert (Hf : In l (filter (Db.eq_shortCode key) (rows w1)))
          by (rewrite E; left; reflexivity).
        apply filter_In in Hf. destruct Hf as [Hin Hp].
        split; [exact Hin | apply String.eqb_eq; exact Hp].
    + destruct (filter (Db.eq_originalUrl key) (rows w1)) as [|l t] eqn:E; simpl.
      * intros l Hin Hc.
        assert (Hf : In l (filter (Db.eq_originalUrl key) (rows w1))).
        { apply filter_In. split; [exact Hin|].
          unfold Db.eq_originalUrl. rewrite Hc. apply String.eqb_refl. }
        rewrite E in Hf. contradiction.
      * assert (Hf : In l (filter (Db.eq_originalUrl key) (rows w1)))
          by (rewrite E; left; reflexivity).
        apply filter_In in Hf. destruct Hf as [Hin Hp].
        split; [exact Hin | apply String.eqb_eq; exact Hp].
Qed.

(** ** Creating a link on a quiet store *)

Lemma hd_filter_none_inv {A} (p : A -> bool) (t : list A) :
  hd_error (filter p t) = None -> existsb p t = false.
Proof.
  intros H. destruct (existsb p t) eqn:E; [|reflexivity].
  destruct (hd_filter_some p t E) as (x & Hx). congruence.
Qed.

Lemma drawn_code_truthy t from : js_notnot (Some (Nanoid.draw t from 8)) = true.
Proof.
  destruct (draw_shape 8 t from) as (Hlen & _).
  destruct (Nanoid.draw t from 8); [discriminate | reflexivity].
Qed.

Lemma generate_quiet n : forall w,
  quiet w ->
  exists r w1,
    LinkService.generateUniqueShortCode n w = (r, w1) /\ same_store w w1
    /\ match r with
       | inr c => code_taken c w = false /\ js_notnot (Some c) = true
                  /\ String.length c = 8%nat
       | inl e => e = LinkServiceError "No se pudo generar un código único"
                                       INTERNAL_SERVER_ERROR
       end.
Proof.
  induction n as [|n IH]; intros w Hq.
  - exists (inl (LinkServiceError "No se pudo generar un código único"
                                  INTERNAL_SERVER_ERROR)), w.
    repeat split.
  - simpl LinkService.generateUniqueShortCode. unfold bind at 1.
    unfold Nanoid.nanoid at 1. unfold bind at 1.
    rewrite find_code_quiet by exact Hq. cbn [rows log set_cursor].
    set (c := Nanoid.draw (tape w) (cursor w) 8).
    set (w1 := log (EvSelectByCode c) (log (EvNanoid c) (set_cursor (cursor w + 8) w))).
    destruct (hd_error (filter (Db.eq_shortCode c) (rows w))) as [l|] eqn:E.
    + destruct (IH w1 Hq) as (r & w2 & Hgen & Hsame & Hr).
      exists r, w2. split; [exact Hgen|]. split.
      * apply (same_store_trans w w1 w2); [repeat split | exact Hsame].
      * exact Hr.
    + exists (inr c), w1. split; [reflexivity|]. split; [repeat split|].
      split; [apply hd_filter_none_inv; exact E|].
      split; [apply drawn_code_truthy | apply draw_shape].
Qed.

Lemma choose_code_quiet data w :
  quiet w ->
  exists r w1,
    choose_code data w = (r, w1) /\ same_store w w1
    /\ match r with
       | inr c => url_stored (dto_originalUrl data) w = false
                  /\ code_taken c w = false /\ js_notnot (Some c) = true
                  /\ (js_not (dto_shortCode data) = false ->
                      c = LinkService.the_string (dto_shortCode data))
                  /\ (js_not (dto_shortCode data) = true ->
                      String.length c = 8%nat)
       | inl e => createLink_error e
       end.
Proof.
  intros Hq. unfold choose_code, bind at 1.
  rewrite find_url_quiet by exact Hq.
  destruct (hd_error (filter (Db.eq_originalUrl (dto_originalUrl data)) (rows w)))
    as [l|] eqn:Eu.
  - eexists. eexists. split; [reflexivity|]. split; [repeat split|].
    left. reflexivity.
  - apply hd_filter_none_inv in Eu.
    destruct (js_not (dto_shortCode data)) eqn:Hno.
    + destruct (generate_quiet 3 (log (EvSelectByUrl (dto_originalUrl data)) w) Hq)
        as (r & w1 & Hgen & Hsame & Hr).
      exists r, w1. split; [exact Hgen|]. split; [exact Hsame|].
      destruct r as [e|c].
      * right. right. left. exact Hr.
      * destruct Hr as (Hfree & Ht & Hlen).
        repeat split; [exact Eu | exact Hfree | exact Ht | discriminate
                       | intros _; exact Hlen].
    + unfold bind. rewrite find_code_quiet by exact Hq. cbn [rows log].
      destruct (hd_error (filter (Db.eq_shortCode
                 (LinkService.the_string (dto_shortCode data))) (rows w)))
        as [l|] eqn:Ec.
      * eexists. eexists. split; [reflexivity|]. split; [repeat split|].
        right. left. reflexivity.
      * apply hd_filter_none_inv in Ec.
        eexists. eexists. split; [reflexivity|]. split; [repeat split|].
        repeat split; [exact Eu | exact Ec | | discriminate].
        unfold js_not in Hno. unfold js_notnot, js_not.
        destruct (dto_shortCode data) as [[|ch s0]|]; simpl in *; congruence.
Qed.

(** What [createLink] does on a quiet store, in full. *)
Lemma createLink_quiet data w :
  quiet w ->
  quiet (after (LinkService.createLink data w))
  /\ clock (after (LinkService.createLink data w)) = clock w
  /\ match outcome (LinkService.createLink data w) with
     | inl e =>
         createLink_error e
         /\ rows (after (LinkService.createLink data w)) = rows w
         /\ lastId (after (LinkService.createLink data w)) = lastId w
     | inr l =>
         rows (after (LinkService.createLink data w)) = (rows w ++ [l])%list
         /\ lastId (after (LinkService.createLink data w)) = lastId w + 1
         /\ l = mkLink (lastId w + 1) (dto_originalUrl data) (shortCode l)
                       (Some true) (Some (clock w)) 0
         /\ url_stored (dto_originalUrl data) w = false
         /\ code_taken (shortCode l) w = false
         /\ js_notnot (Some (shortCode l)) = true
         /\ (js_not (dto_shortCode data) = false ->
             shortCode l = LinkService.the_string (dto_shortCode data))
         /\ (js_not (dto_shortCode data) = true ->
             String.length (shortCode l) = 8%nat)
     end.
Proof.
  intros Hq.
  destruct (choose_code_quiet data w Hq)
    as (r & w1 & Hcc & (Hrows & Hid & Hclock & Hscript & Htape) & Hr).
  assert (Hq1 : quiet w1) by (unfold quiet; rewrite Hscript; exact Hq).
  destruct r as [e|c].
  - assert (E : LinkService.createLink data w = (inl e, w1)).
    { rewrite createLink_steps. unfold try_catch, bind at 1. rewrite Hcc.
      unfold rethrow. destruct Hr as [->|[->|[->| ->]]]; reflexivity. }
    rewrite E. unfold outcome, after. simpl.
    split; [exact Hq1|]. split; [exact Hclock|]. repeat split; assumption.
  - destruct Hr as (Hu & Hc & Ht & Hcustom & Hgen).
    assert (E : LinkService.createLink data w
                = LinkRepository.create
                    (LinkRepository.mkCreate (dto_originalUrl data) c) w1).
    { rewrite createLink_steps. unfold try_catch, bind at 1. rewrite Hcc.
      unfold bind.
      destruct (LinkRepository.create _ w1) as [[e|l] w2] eqn:Ec; [|reflexivity].
      rewrite create_quiet in Ec; [discriminate | exact Hq1 | |].
      - unfold url_stored in *. rewrite Hrows. exact Hu.
      - unfold code_taken in *. rewrite Hrows. exact Hc. }
    rewrite E. rewrite create_quiet.
    + unfold outcome, after. cbn. rewrite Ht, Hrows, Hid, Hclock.
      split; [exact Hq1|]. repeat split; assumption.
    + exact Hq1.
    + unfold url_stored in *. rewrite Hrows. exact Hu.
    + unfold code_taken in *. rewrite Hrows. exact Hc.
Qed.

(** X4: on a quiet store that does not hold the URL, asking for a custom code
    that a stored link already has fails with BAD_REQUEST; no insert is
    attempted, no code is generated and the table is unchanged. *)
Theorem custom_code_in_use_is_bad_request (url code : string) (w : World) :
  quiet w -> code <> "" ->
  url_stored url w = false -> code_taken code w = true ->
  outcome (LinkService.createLink (mkDTO url (Some code)) w)
  = inl (LinkServiceError
           "Este código personalizado ya está en uso. Elige uno diferente."
           BAD_REQUEST)
  /\ rows (after (LinkService.createLink (mkDTO url (Some code)) w)) = rows w
  /\ inserts (after (LinkService.createLink (mkDTO url (Some code)) w)) = inserts w
  /\ nanoids (after (LinkService.createLink (mkDTO url (Some code)) w)) = nanoids w.
Proof.
  intros Hq Hne Hu Hc.
  assert (E : LinkService.createLink (mkDTO url (Some code)) w
              = (inl (LinkServiceError
                   "Este código personalizado ya está en uso. Elige uno diferente."
                   BAD_REQUEST),
                 log (EvSelectByCode code) (log (EvSelectByUrl url) w))).
  { rewrite createLink_steps. unfold try_catch, bind at 1, choose_code, bind at 1.
    rewrite find_url_quiet by exact Hq.
    cbn [dto_shortCode dto_originalUrl LinkService.the_string].
    unfold url_stored in Hu. rewrite (hd_filter_none _ _ Hu).
    rewrite (nonempty_truthy code Hne). unfold bind.
    rewrite find_code_quiet by exact Hq. cbn [rows log].
    destruct (hd_filter_some _ _ Hc) as (l & ->). reflexivity. }
  rewrite E. repeat split.
Qed.

Lemma custom_code_in_use_is_bad_request_witness :
  outcome (LinkService.createLink (mkDTO "https://new.example" (Some "abc123"))
                                  one_link_store)
  = inl (LinkServiceError
           "Este código personalizado ya está en uso. Elige uno diferente."
           BAD_REQUEST)
  /\ rows (after (LinkService.createLink
                    (mkDTO "https://new.example" (Some "abc123")) one_link_store))
     = rows one_link_store.
Proof.
  destruct (custom_code_in_use_is_bad_request "https://new.example" "abc123"
              one_link_store) as (H1 & H2 & _).
  - reflexivity.
  - discriminate.
  - reflexivity.
  - reflexivity.
  - split; [exact H1 | exact H2].
Defined.

(** X5: on a quiet store that holds neither the URL nor the wanted custom
    code, [createLink] succeeds: it appends one row carrying that URL and
    that code verbatim, the next id, the current time, zero clicks and the
    custom flag, and returns that row. *)
Theorem custom_code_is_stored_verbatim (url code : string) (w : World) :
  quiet w -> code <> "" ->
  url_stored url w = false -> code_taken code w = false ->
  outcome (LinkService.createLink (mkDTO url (Some code)) w)
  = inr (mkLink (lastId w + 1) url code (Some true) (Some (clock w)) 0)
  /\ rows (after (LinkService.createLink (mkDTO url (Some code)) w))
     = (rows w ++ [mkLink (lastId w + 1) url code (Some true) (Some (clock w)) 0])%list
  /\ nanoids (after (LinkService.createLink (mkDTO url (Some code)) w)) = nanoids w.
Proof.
  intros Hq Hne Hu Hc.
  assert (E : LinkService.createLink (mkDTO url (Some code)) w
              = LinkRepository.create (LinkRepository.mkCreate url code)
                  (log (EvSelectByCode code) (log (EvSelectByUrl url) w))).
  { rewrite createLink_steps. unfold try_catch, bind at 1, choose_code, bind at 1.
    rewrite find_url_quiet by exact Hq.
    cbn [dto_shortCode dto_originalUrl LinkService.the_string].
    pose proof Hu as Hu'. unfold url_stored in Hu'. rewrite (hd_filter_none _ _ Hu').
    rewrite (nonempty_truthy code Hne). unfold bind.
    rewrite find_code_quiet by exact Hq. cbn [rows log].
    pose proof Hc as Hc'. unfold code_taken in Hc'. rewrite (hd_filter_none _ _ Hc').
    unfold ret at 1. rewrite create_quiet by assumption. reflexivity. }
  rewrite E. rewrite create_quiet by assumption.
  assert (Ht : js_notnot (Some code) = true)
    by (destruct code; [congruence | reflexivity]).
  rewrite Ht. repeat split.
Qed.

Lemma custom_code_is_stored_verbatim_witness :
  outcome (LinkService.createLink (mkDTO "https://new.example" (Some "mine"))
                                  one_link_store)
  = inr (mkLink 2 "https://new.example" "mine" (Some true) (Some 2000) 0).
Proof.
  apply (custom_code_is_stored_verbatim "https://new.example" "mine" one_link_store).
  - reflexivity.
  - discriminate.
  - reflexivity.
  - reflexivity.
Defined.

(** X6: on a quiet store [createLink] is all or nothing. When it fails, the
    table and the id sequence are as before. When it succeeds, the URL and
    the code were both free, and exactly one row was appended: the returned
    link, with the next id, the request's URL, the current time and zero
    clicks. *)
Theorem createLink_all_or_nothing (data : CreateLinkDTO) (w : World) :
  quiet w ->
  match outcome (LinkService.createLink data w) with
  | inl _ =>
      rows (after (LinkService.createLink data w)) = rows w
      /\ lastId (after (LinkService.createLink data w)) = lastId w
  | inr l =>
      rows (after (LinkService.createLink data w)) = (rows w ++ [l])%list
      /\ id l = lastId w + 1 /\ originalUrl l = dto_originalUrl data
      /\ createdAt l = Some (clock w) /\ clickCount l = 0
      /\ url_stored (dto_originalUrl data) w = false
      /\ code_taken (shortCode l) w = false
  end.
Proof.
  intros Hq. pose proof (createLink_quiet data w Hq) as (_ & _ & H).
  destruct (outcome (LinkService.createLink data w)) as [e|l].
  - destruct H as (_ & Hr & Hi). split; assumption.
  - destruct H as (Hr & _ & Hl & Hu & Hc & _).
    split; [exact Hr|]. rewrite Hl. cbn. rewrite Hl in Hc. cbn in Hc.
    repeat split; assumption.
Qed.

Lemma createLink_all_or_nothing_witness :
  match outcome (LinkService.createLink (mkDTO "https://example.com" None)
                                        one_link_store) with
  | inl _ =>
      rows (after (LinkService.createLink (mkDTO "https://example.com" None)
                                          one_link_store))
      = rows one_link_store
      /\ lastId (after (LinkService.createLink (mkDTO "https://example.com" None)
                                              one_link_store))
         = lastId one_link_store
  | inr l =>
      rows (after (LinkService.createLink (mkDTO "https://example.com" None)
                                          one_link_store))
      = (rows one_link_store ++ [l])%list
      /\ id l = lastId one_link_store + 1
      /\ originalUrl l = dto_originalUrl (mkDTO "https://example.com" None)
      /\ createdAt l = Some (clock one_link_store) /\ clickCount l = 0
      /\ url_stored (dto_originalUrl (mkDTO "https://example.com" None))
                    one_link_store = false
      /\ code_taken (shortCode l) one_link_store = false
  end.
Proof.
  apply (createLink_all_or_nothing (mkDTO "https://example.com" None)
                                   one_link_store).
  reflexivity.
Defined.

(** ** One request after another *)

Lemma url_stored_after_append url l w w' :
  rows w' = (rows w ++ [l])%list -> originalUrl l = url ->
  url_stored url w' = true.
Proof.
  intros Hr Hu. unfold url_stored. rewrite Hr, existsb_app. simpl.
  unfold Db.eq_originalUrl. rewrite Hu, String.eqb_refl.
  rewrite orb_true_r. reflexivity.
Qed.

Lemma hd_filter_appended {A} (p : A -> bool) (t : list A) (x : A) :
  existsb p t = false -> p x = true -> filter p (t ++ [x]) = [x].
Proof.
  intros Hn Hp. rewrite filter_app. simpl. rewrite Hp.
  rewrite filter_none; [reflexivity|].
  intros y Hy. destruct (p y) eqn:E; [|reflexivity].
  assert (existsb p t = true) by (apply existsb_exists; eauto). congruence.
Qed.

(** X7: on a quiet store, once [createLink] has stored a URL, any further
    [createLink] for that URL, with or without a custom code, fails with
    CONFLICT and leaves the table as the first call left it. *)
Theorem second_createLink_for_a_url_conflicts
        (data : CreateLinkDTO) (again : option string) (w : World) (l : Link) :
  quiet w ->
  outcome (LinkService.createLink data w) = inr l ->
  outcome (LinkService.createLink (mkDTO (dto_originalUrl data) again)
             (after (LinkService.createLink data w)))
  = inl (LinkServiceError "Esta URL ya está registrada" CONFLICT)
  /\ rows (after (LinkService.createLink (mkDTO (dto_originalUrl data) again)
                    (after (LinkService.createLink data w))))
     = rows (after (LinkService.createLink data w)).
Proof.
  intros Hq Hok.
  pose proof (createLink_quiet data w Hq) as (Hq' & _ & H).
  rewrite Hok in H. destruct H as (Hr & _ & Hl & _).
  apply duplicate_url_conflict; [exact Hq'|].
  apply (url_stored_after_append _ l w); [exact Hr|].
  rewrite Hl. reflexivity.
Qed.

Lemma second_createLink_for_a_url_conflicts_witness :
  outcome (LinkService.createLink (mkDTO "https://example.com" (Some "other"))
             (after (LinkService.createLink (mkDTO "https://example.com" None)
                                            empty_store)))
  = inl (LinkServiceError "Esta URL ya está registrada" CONFLICT).
Proof.
  eapply proj1.
  apply (second_createLink_for_a_url_conflicts
           (mkDTO "https://example.com" None) (Some "other") empty_store
           (mkLink 1 "https://example.com" "uuuuuuuu" (Some true) (Some 0) 0)).
  - reflexivity.
  - reflexivity.
Defined.

(** X8: on a quiet store, a link that [createLink] returned is found again,
    unchanged and with zero clicks, both by its URL and by its code. *)
Theorem created_link_is_found_again (data : CreateLinkDTO) (w : World) (l : Link) :
  quiet w ->
  outcome (LinkService.createLink data w) = inr l ->
  outcome (LinkRepository.findByOriginalUrl (dto_originalUrl data)
             (after (LinkService.createLink data w))) = inr (Some l)
  /\ outcome (LinkRepository.findByShortCode (shortCode l)
                (after (LinkService.createLink data w))) = inr (Some l)
  /\ clickCount l = 0.
Proof.
  intros Hq Hok.
  pose proof (createLink_quiet data w Hq) as (Hq' & _ & H).
  rewrite Hok in H. destruct H as (Hr & _ & Hl & Hu & Hc & _).
  rewrite find_url_quiet, find_code_quiet by exact Hq'.
  unfold outcome. cbn [fst]. rewrite Hr.
  rewrite !hd_filter_appended.
  - repeat split. rewrite Hl. reflexivity.
  - exact Hc.
  - unfold Db.eq_shortCode. apply String.eqb_refl.
  - exact Hu.
  - unfold Db.eq_originalUrl. rewrite Hl. cbn. apply String.eqb_refl.
Qed.

Lemma created_link_is_found_again_witness :
  outcome (LinkRepository.findByOriginalUrl "https://example.com"
             (after (LinkService.createLink (mkDTO "https://example.com" None)
                                            empty_store)))
  = inr (Some (mkLink 1 "https://example.com" "uuuuuuuu" (Some true) (Some 0) 0)).
Proof.
  eapply proj1.
  apply (created_link_is_found_again (mkDTO "https://example.com" None)
           empty_store
           (mkLink 1 "https://example.com" "uuuuuuuu" (Some true) (Some 0) 0)).
  - reflexivity.
  - reflexivity.
Defined.

(** ** Visits *)

Lemma GET_quiet_found code w l rest :
  code <> "" -> quiet w ->
  filter (Db.eq_shortCode code) (rows w) = l :: rest ->
  Route.GET (Some code) w
  = (inr (Route.Redirect (originalUrl l) 302),
     set_rows (map (bump (id l) (clickCount l + 1)) (rows w))
              (log (EvUpdate (id l)) (log (EvSelectByCode code) w))).
Proof.
  intros Hne Hq Hf. unfold Route.GET, try_catch, bind.
  rewrite (nonempty_truthy code Hne). simpl LinkService.the_string.
  rewrite (call_query_quiet _ _ w Hq). unfold Db.where_. rewrite Hf.
  rewrite call_update_quiet by (apply quiet_log; exact Hq). reflexivity.
Qed.

Lemma map_bump_other i n t :
  Forall (fun r => id r <> i) t -> map (bump i n) t = t.
Proof.
  induction 1 as [|r t Hr _ IH]; simpl; [reflexivity|].
  rewrite IH. unfold bump, Db.eq_id.
  destruct (Z.eqb_spec (id r) i); [contradiction | reflexivity].
Qed.

Lemma bump_self l n : bump (id l) n l = Db.set_clickCount n l.
Proof. unfold bump, Db.eq_id. rewrite Z.eqb_refl. reflexivity. Qed.

(** X9: on a quiet, consistent store, visiting the code of a link that
    [createLink] has just returned redirects (302) to the URL of the request,
    and the table then holds the old rows, untouched, followed by that link
    with one click. *)
Theorem created_link_resolves (data : CreateLinkDTO) (w : World) (l : Link) :
  quiet w -> consistent w ->
  outcome (LinkService.createLink data w) = inr l ->
  outcome (Route.GET (Some (shortCode l)) (after (LinkService.createLink data w)))
  = inr (Route.Redirect (dto_originalUrl data) 302)
  /\ rows (after (Route.GET (Some (shortCode l))
                            (after (LinkService.createLink data w))))
     = (rows w ++ [Db.set_clickCount 1 l])%list.
Proof.
  intros Hq (_ & _ & _ & Hle) Hok.
  pose proof (createLink_quiet data w Hq) as (Hq' & _ & H).
  rewrite Hok in H. destruct H as (Hr & _ & Hl & _ & Hc & Ht & _).
  assert (Hne : shortCode l <> "").
  { intros E. rewrite E in Ht. discriminate. }
  rewrite (GET_quiet_found (shortCode l) _ l [] Hne Hq').
  - unfold outcome, after in *. cbn [fst snd rows set_rows log].
    rewrite Hr, map_app. cbn [map]. rewrite bump_self.
    rewrite map_bump_other.
    + rewrite Hl. split; reflexivity.
    + refine (Forall_impl _ _ Hle). intros r Hr'. simpl in Hr'.
      rewrite Hl. cbn [id]. lia.
  - rewrite Hr. apply hd_filter_appended; [exact Hc|].
    unfold Db.eq_shortCode. apply String.eqb_refl.
Qed.

Lemma created_link_resolves_witness :
  outcome (Route.GET (Some "mine")
             (after (LinkService.createLink
                       (mkDTO "https://new.example" (Some "mine")) one_link_store)))
  = inr (Route.Redirect "https://new.example" 302).
Proof.
  eapply proj1.
  apply (created_link_resolves (mkDTO "https://new.example" (Some "mine"))
           one_link_store
           (mkLink 2 "https://new.example" "mine" (Some true) (Some 2000) 0)).
  - reflexivity.
  - exact consistent_one_link_store.
  - reflexivity.
Defined.

Lemma set_clickCount_same l : Db.set_clickCount (clickCount l) l = l.
Proof. destruct l; reflexivity. Qed.

(** X10: on a quiet, consistent store, [k] visits of a stored link's code in
    a row leave that link in the table with exactly [k] more clicks and
    nothing else about it changed, as long as the count starts at 0 or more
    and stays a safe integer all along; the store stays quiet and
    consistent. *)
Theorem visits_add_up (k : nat) : forall (code : string) (w : World) (l : Link),
  code <> "" -> quiet w -> consistent w ->
  In l (rows w) -> shortCode l = code ->
  0 <= clickCount l -> clickCount l + Z.of_nat k <= max_safe_integer ->
  In (Db.set_clickCount (clickCount l + Z.of_nat k) l)
     (rows (resolve_times k code w))
  /\ quiet (resolve_times k code w) /\ consistent (resolve_times k code w).
Proof.
  induction k as [|k IH]; intros code w l Hne Hq Hcons Hin Hc Hlow Hhigh.
  - simpl. rewrite Z.add_0_r, set_clickCount_same.
    split; [exact Hin | split; [exact Hq | exact Hcons]].
  - cbn [resolve_times].
    assert (Hcodes : unique_codes (rows w)) by (destruct Hcons as (_ & _ & H & _); exact H).
    pose proof (filter_code_unique code l (rows w) Hcodes Hin Hc) as Hf.
    rewrite (GET_quiet_found code w l [] Hne Hq Hf). unfold after. cbn [snd].
    set (w1 := set_rows (map (bump (id l) (clickCount l + 1)) (rows w))
                        (log (EvUpdate (id l)) (log (EvSelectByCode code) w))).
    destruct (IH code w1 (Db.set_clickCount (clickCount l + 1) l)) as (H1 & H2 & H3).
    + exact Hne.
    + exact Hq.
    + exact (consistent_update (id l) (clickCount l + 1)
               (log (EvUpdate (id l)) (log (EvSelectByCode code) w)) Hcons).
    + unfold w1. cbn [rows set_rows]. rewrite <- bump_self.
      apply in_map. exact Hin.
    + exact Hc.
    + cbn [clickCount Db.set_clickCount]. lia.
    + cbn [clickCount Db.set_clickCount]. lia.
    + split; [|split; assumption].
      replace (clickCount l + Z.of_nat (S k))
        with (clickCount (Db.set_clickCount (clickCount l + 1) l) + Z.of_nat k)
        by (cbn; lia).
      exact H1.
Qed.

Lemma visits_add_up_witness :
  In (Db.set_clickCount (clickCount example_link + Z.of_nat 3) example_link)
     (rows (resolve_times 3 "abc123" one_link_store)).
Proof.
  eapply proj1.
  apply (visits_add_up 3 "abc123" one_link_store example_link).
  - discriminate.
  - reflexivity.
  - exact consistent_one_link_store.
  - left. reflexivity.
  - reflexivity.
  - simpl. lia.
  - unfold max_safe_integer. simpl. lia.
Defined.

(** ** Links are kept, clicks only go up *)

Lemma same_identity_refl a : same_identity a a.
Proof. repeat split. Qed.

Lemma grows_refl w : grows w w.
Proof.
  intros a Ha. exists a. split; [exact Ha|].
  split; [apply same_identity_refl | lia].
Qed.

Lemma grows_trans w1 w2 w3 : grows w1 w2 -> grows w2 w3 -> grows w1 w3.
Proof.
  intros H12 H23 a Ha.
  destruct (H12 a Ha) as (b & Hb & (i1 & u1 & c1 & f1 & t1) & Hab).
  destruct (H23 b Hb) as (c & Hc & (i2 & u2 & c2 & f2 & t2) & Hbc).
  exists c. split; [exact Hc|]. split; [|lia].
  repeat split; congruence.
Qed.

Lemma in_rows_insert l v w :
  In l (rows w) -> In l (rows (snd (Db.insert_returning v w))).
Proof.
  intros H. unfold Db.insert_returning.
  destruct (existsb _ _); [exact H|]. destruct (existsb _ _); [exact H|].
  simpl. apply in_or_app. left. exact H.
Qed.

Lemma grows_insert w0 v w :
  grows w0 w -> grows w0 (snd (Db.insert_returning v w)).
Proof.
  intros H a Ha. destruct (H a Ha) as (b & Hb & Hab).
  exists b. split; [apply in_rows_insert; exact Hb | exact Hab].
Qed.

Lemma in_rows_take_turn l w :
  In l (rows w) -> In l (rows (snd (Db.take_turn w))).
Proof.
  apply (P_take_turn (fun w' => In l (rows w'))).
  - intros s w' H. exact H.
  - intros v w' H. apply in_rows_insert. exact H.
Qed.

Lemma kept_take_turn w0 w :
  consistent w /\ grows w0 w ->
  consistent (snd (Db.take_turn w)) /\ grows w0 (snd (Db.take_turn w)).
Proof.
  apply (P_take_turn (fun w' => consistent w' /\ grows w0 w')).
  - intros s w' H. exact H.
  - intros v w' [Hc Hg]. split; [apply consistent_insert | apply grows_insert];
      assumption.
Qed.

Lemma grows_click w0 link w :
  consistent w -> In link (rows w) -> grows w0 w ->
  grows w0 (snd (Db.update_clickCount (id link) (clickCount link + 1) w)).
Proof.
  intros (Hids & _) Hin Hg a Ha.
  destruct (Hg a Ha) as (b & Hb & Hid & Hab).
  exists (bump (id link) (clickCount link + 1) b). split.
  - simpl. apply (in_map (bump (id link) (clickCount link + 1))). exact Hb.
  - unfold bump, Db.eq_id. destruct (Z.eqb_spec (id b) (id link)) as [E|E].
    + assert (b = link) by (apply (same_id_same_row link b (rows w)); auto).
      subst b. split; [exact Hid | simpl; lia].
    + split; [exact Hid | exact Hab].
Qed.

Lemma GET_keeps_links w0 p w :
  consistent w -> grows w0 w -> grows w0 (after (Route.GET p w)).
Proof.
  intros Hc Hg. unfold Route.GET, try_catch, after.
  destruct (js_not p); [exact Hg|].
  unfold bind at 1. unfold Db.call at 1.
  destruct (kept_take_turn w0 w (conj Hc Hg)) as [Hc1 Hg1].
  destruct (Db.take_turn w) as [down w1]. cbn [snd] in Hc1, Hg1.
  destruct down; [exact Hg1|].
  unfold Db.query, Db.where_. cbn [rows log].
  destruct (filter _ (rows w1)) as [|link found] eqn:Ef; [exact Hg1|].
  assert (Hin : In link (rows w1)).
  { assert (H : In link (filter (Db.eq_shortCode (LinkService.the_string p)) (rows w1)))
      by (rewrite Ef; left; reflexivity).
    apply filter_In in H. exact (proj1 H). }
  unfold bind. unfold Db.call.
  destruct (kept_take_turn w0 (log (EvSelectByCode (LinkService.the_string p)) w1)
              (conj Hc1 Hg1)) as [Hc2 Hg2].
  pose proof (in_rows_take_turn link
                (log (EvSelectByCode (LinkService.the_string p)) w1) Hin) as Hin2.
  destruct (Db.take_turn (log (EvSelectByCode (LinkService.the_string p)) w1))
    as [down2 w2]. cbn [snd] in Hc2, Hg2, Hin2.
  destruct down2; [exact Hg2|].
  exact (grows_click w0 link (log (EvUpdate (id link)) w2) Hc2 Hin2 Hg2).
Qed.

Lemma serve_keeps_links r w : consistent w -> grows w (serve r w).
Proof.
  intros Hc.
  assert (Hlog : forall ev w', consistent w' /\ grows w w' ->
                               consistent (log ev w') /\ grows w (log ev w'))
    by (intros ev w' H; exact H).
  assert (Hscript : forall s w', consistent w' /\ grows w w' ->
              consistent (set_script s w') /\ grows w (set_script s w'))
    by (intros s w' H; exact H).
  assert (Hcursor : forall c w', consistent w' /\ grows w w' ->
              consistent (set_cursor c w') /\ grows w (set_cursor c w'))
    by (intros c w' H; exact H).
  assert (Hinsert : forall v w', consistent w' /\ grows w w' ->
              consistent (snd (Db.insert_returning v w'))
              /\ grows w (snd (Db.insert_returning v w'))).
  { intros v w' [H1 H2].
    split; [apply consistent_insert | apply grows_insert]; assumption. }
  destruct r; simpl.
  - apply (preserves_action_createLink _ Hlog Hscript Hcursor Hinsert data w).
    split; [exact Hc | apply grows_refl].
  - apply (preserves_inline_createLink _ Hlog Hscript Hcursor Hinsert data w).
    split; [exact Hc | apply grows_refl].
  - apply GET_keeps_links; [exact Hc | apply grows_refl].
  - apply (preserves_getAllLinks _ Hlog Hscript Hinsert w).
    split; [exact Hc | apply grows_refl].
Qed.

(** X11: along any sequence of requests that starts from a consistent store,
    under any surroundings, no link is ever deleted or rewritten and no click
    count ever goes down: every link of the starting table is still there at
    the end with the same id, URL, code, custom flag and creation date, and
    at least as many clicks. *)
Theorem links_are_kept_and_clicks_only_go_up
        (reqs : list (Surroundings * Request)) : forall w,
  consistent w -> grows w (run reqs w).
Proof.
  induction reqs as [|[s r] reqs IH]; intros w Hc; simpl.
  - apply grows_refl.
  - apply (grows_trans w (serve r (meet s w))).
    + exact (serve_keeps_links r (meet s w) Hc).
    + apply IH. apply consistent_serve. exact Hc.
Qed.

Lemma links_are_kept_and_clicks_only_go_up_witness :
  grows one_link_store
        (run [(mkSurroundings 5000 (fun _ => 0%N) [], Resolve (Some "abc123"));
              (mkSurroundings 6000 (fun _ => 0%N) [],
               Create (mkDTO "https://new.example" None))]
             one_link_store).
Proof.
  apply (links_are_kept_and_clicks_only_go_up _ one_link_store).
  exact consistent_one_link_store.
Defined.

(** ** What the route answers *)

(** X12: [GET] never throws. It always answers, with status 302, 400, 404 or
    500; a missing or empty code is answered 400 without touching the store
    or making any call; and on a quiet store the answer is never 500. *)
Theorem GET_always_answers (p : option string) (w : World) :
  (exists r, outcome (Route.GET p w) = inr r
             /\ (status r = 302 \/ status r = 400 \/ status r = 404
                 \/ status r = 500)
             /\ (status r = 400 -> js_not p = true)
             /\ (quiet w -> status r <> 500))
  /\ (js_not p = true ->
      Route.GET p w = (inr (Route.Plain "Short code not provided" 400), w)).
Proof.
  split.
  - unfold Route.GET, try_catch, outcome.
    destruct (js_not p) eqn:Hp.
    + eexists. split; [reflexivity|]. simpl. repeat split; try tauto.
      intros _. discriminate.
    + unfold bind at 1. unfold Db.call at 1, quiet, Db.take_turn.
      destruct (script w) as [|t rest] eqn:Es.
      * unfold Db.query, Db.where_. cbn [rows log].
        destruct (filter _ (rows w)) as [|link found].
        -- eexists. split; [reflexivity|]. simpl.
           repeat split; try tauto; discriminate.
        -- unfold bind, Db.call, Db.take_turn. cbn [script log]. rewrite Es.
           eexists. split; [reflexivity|]. simpl.
           repeat split; try tauto; discriminate.
      * destruct (outage t).
        -- eexists. split; [reflexivity|]. simpl.
           repeat split; try tauto; discriminate.
        -- unfold Db.query, Db.where_.
           destruct (filter _ _) as [|link found].
           ++ eexists. split; [reflexivity|]. simpl.
              repeat split; try tauto; discriminate.
           ++ unfold bind, Db.call.
              destruct (Db.take_turn _) as [down2 w2]. destruct down2.
              ** eexists. split; [reflexivity|]. simpl.
                 repeat split; try tauto; discriminate.
              ** eexists. split; [reflexivity|]. simpl.
                 repeat split; try tauto; discriminate.
  - intros Hp. unfold Route.GET, try_catch. rewrite Hp. reflexivity.
Qed.

(** ** Listing *)



(** X14: the two [getLinks] actions run the same query. They leave the same
    world; when one fails so does the other, each with its own
    INTERNAL_SERVER_ERROR; and when they succeed the layered result is the
    inline result without the click counts, in the same order. *)
Theorem getLinks_actions_agree (w : World) :
  after (Actions.getLinks w) = after (InlineActions.getLinks w)
  /\ match outcome (InlineActions.getLinks w), outcome (Actions.getLinks w) with
     | inr full, inr short => short = map drop_clicks full
     | inl e1, inl e2 =>
         e1 = ActionError INTERNAL_SERVER_ERROR "Failed to fetch links"
         /\ e2 = ActionError INTERNAL_SERVER_ERROR "Error al obtener enlaces"
     | _, _ => False
     end.
Proof.
  unfold Actions.getLinks, InlineActions.getLinks, LinkService.getAllLinks,
    LinkRepository.findAll, try_catch, bind, Db.call, outcome, after.
  destruct (Db.take_turn w) as [down w1]. destruct down.
  - split; [reflexivity|]. split; reflexivity.
  - unfold Db.query. cbn. split; [reflexivity|].
    rewrite map_map. reflexivity.
Qed.

(** ** The older inline action *)

Lemma filter_not_exists {A} (p : A -> bool) (t : list A) :
  existsb p t = false -> filter p t = [].
Proof.
  intros H. apply filter_none. intros x Hx.
  destruct (p x) eqn:Hp; [|reflexivity].
  assert (existsb p t = true) by (apply existsb_exists; eauto). congruence.
Qed.

Lemma call_insert_returns ev v w l w' :
  Db.call ev (Db.insert_returning v) w = (inr l, w') ->
  originalUrl l = new_originalUrl v /\ shortCode l = new_shortCode v
  /\ isCustom l = Some (new_isCustom v) /\ clickCount l = 0
  /\ In l (rows w').
Proof.
  unfold Db.call. destruct (Db.take_turn w) as [down w1].
  destruct down; [discriminate|].
  unfold Db.insert_returning. cbn [rows log].
  destruct (existsb _ _); [discriminate|].
  destruct (existsb _ _); [discriminate|].
  intros H. injection H as <- <-. cbn.
  repeat split. apply in_or_app. right. left. reflexivity.
Qed.

Lemma inline_createLink_returns input w l w' :
  InlineActions.createLink input w = (inr l, w') ->
  isCustom l = Some (truthy (dto_shortCode input))
  /\ originalUrl l = dto_originalUrl input /\ clickCount l = 0
  /\ (truthy (dto_shortCode input) = true ->
      dto_shortCode input = Some (shortCode l))
  /\ (truthy (dto_shortCode input) = false ->
      String.length (shortCode l) = 8%nat)
  /\ In l (rows w').
Proof.
  unfold InlineActions.createLink, try_catch.
  unfold bind at 1.
  destruct (Db.call _ _ w) as [[e|[|x found]] w1];
    [destruct (is_ActionError e); discriminate | | discriminate].
  unfold bind at 1.
  assert (Hcode : exists c w2,
             (if js_not (dto_shortCode input) then Nanoid.nanoid 8
              else ret (LinkService.the_string (dto_shortCode input))) w1
             = (inr c, w2)
             /\ (truthy (dto_shortCode input) = true ->
                 dto_shortCode input = Some c)
             /\ (truthy (dto_shortCode input) = false ->
                 String.length c = 8%nat)).
  { unfold js_not. destruct (dto_shortCode input) as [[|ch s0]|]; simpl.
    - eexists. eexists. split; [reflexivity|]. split; [discriminate|].
      intros _. apply (draw_shape 8).
    - eexists. eexists. split; [reflexivity|]. split; [reflexivity|discriminate].
    - eexists. eexists. split; [reflexivity|]. split; [discriminate|].
      intros _. apply (draw_shape 8). }
  destruct Hcode as (c & w2 & -> & Hyes & Hno).
  unfold bind at 1.
  destruct (Db.call _ _ w2) as [[e|[|x taken]] w3];
    [destruct (is_ActionError e); discriminate | | discriminate].
  unfold bind.
  destruct (Db.call _ _ w3) as [[e|l0] w4] eqn:Ei;
    [destruct (is_ActionError e); discriminate|].
  cbn. intros H. injection H as -> ->.
  destruct (call_insert_returns _ _ _ _ _ Ei) as (Hu & Hc & Hf & Hk & Hin).
  cbn in Hu, Hc, Hf. subst c.
  unfold js_notnot, js_not in Hf. rewrite negb_involutive in Hf.
  split; [exact Hf|]. repeat split; assumption.
Qed.

(** X15: a link the inline [createLink] returns is flagged custom exactly
    when the caller supplied a non-empty code; it is stored and carries the
    request's URL and zero clicks, the supplied code verbatim if there was
    one, and otherwise a generated code of 8 characters. *)
Theorem inline_createLink_flags_custom_codes
        (input : CreateLinkDTO) (w : World) (l : Link) :
  outcome (InlineActions.createLink input w) = inr l ->
  isCustom l = Some (truthy (dto_shortCode input))
  /\ originalUrl l = dto_originalUrl input /\ clickCount l = 0
  /\ (truthy (dto_shortCode input) = true ->
      dto_shortCode input = Some (shortCode l))
  /\ (truthy (dto_shortCode input) = false ->
      String.length (shortCode l) = 8%nat)
  /\ In l (rows (after (InlineActions.createLink input w))).
Proof.
  unfold outcome, after.
  destruct (InlineActions.createLink input w) as [r w'] eqn:E.
  cbn [fst snd]. intros ->.
  exact (inline_createLink_returns input w l w' E).
Qed.

Lemma inline_createLink_flags_custom_codes_witness :
  isCustom (mkLink 1 "https://example.com" "uuuuuuuu" (Some false) (Some 0) 0)
  = Some (truthy (dto_shortCode (mkDTO "https://example.com" None))).
Proof.
  eapply proj1.
  apply (inline_createLink_flags_custom_codes
           (mkDTO "https://example.com" None) empty_store).
  reflexivity.
Defined.

(** X16: the inline [createLink] tries one code only. On a quiet store that
    does not hold the URL, when no code is supplied and the one generated
    code is taken, it fails at once with BAD_REQUEST and the message written
    for custom codes, after a single draw and with the table unchanged; the
    layered service would go on to a second candidate. *)
Theorem inline_createLink_does_not_retry (url : string) (w : World) :
  quiet w -> url_stored url w = false ->
  code_taken (candidate w 0) w = true ->
  outcome (InlineActions.createLink (mkDTO url None) w)
  = inl (ActionError BAD_REQUEST
           "Este código personalizado ya está en uso. Elige uno diferente.")
  /\ rows (after (InlineActions.createLink (mkDTO url None) w)) = rows w
  /\ nanoids (after (InlineActions.createLink (mkDTO url None) w))
     = S (nanoids w).
Proof.
  intros Hq Hu Ht.
  assert (E : InlineActions.createLink (mkDTO url None) w
              = (inl (ActionError BAD_REQUEST
                   "Este código personalizado ya está en uso. Elige uno diferente."),
                 log (EvSelectByCode (candidate w 0))
                   (log (EvNanoid (candidate w 0))
                      (set_cursor (cursor w + 8)
                         (log (EvSelectByUrl url) w))))).
  { unfold InlineActions.createLink, try_catch, bind at 1.
    cbn [dto_originalUrl dto_shortCode js_not truthy negb].
    rewrite (call_query_quiet _ _ w Hq). unfold Db.where_.
    unfold url_stored in Hu. rewrite (filter_not_exists _ _ Hu).
    unfold bind at 1. unfold Nanoid.nanoid. cbn [tape cursor log].
    unfold candidate in *. rewrite Nat.mul_0_r, Nat.add_0_r in *.
    unfold bind at 1. rewrite call_query_quiet by exact Hq.
    unfold Db.where_, code_taken in *. cbn [rows log set_cursor].
    apply existsb_exists in Ht. destruct Ht as (x & Hx & Hp).
    destruct (filter_some _ x _ Hx Hp) as (y & rest & ->). reflexivity. }
  rewrite E. repeat split.
Qed.

Lemma inline_createLink_does_not_retry_witness :
  outcome (InlineActions.createLink (mkDTO "https://new.example" None)
                                    second_code_fresh)
  = inl (ActionError BAD_REQUEST
           "Este código personalizado ya está en uso. Elige uno diferente.").
Proof.
  eapply proj1.
  apply (inline_createLink_does_not_retry "https://new.example" second_code_fresh).
  - reflexivity.
  - reflexivity.
  - reflexivity.
Defined.

(** ** Ids *)

Lemma StronglySorted_snoc {A} (R : A -> A -> Prop) (t : list A) (y : A) :
  StronglySorted R t -> Forall (fun x => R x y) t ->
  StronglySorted R (t ++ [y]).
Proof.
  induction 1 as [|x t Hs IH Hx]; intros Hall; simpl.
  - constructor; constructor.
  - inversion Hall as [|? ? Hxy Hall']; subst.
    constructor; [apply IH; exact Hall'|].
    apply Forall_app. split; [exact Hx | constructor; [exact Hxy | constructor]].
Qed.

Lemma ids_in_order_insert v w :
  (0 <= lastId w /\ Forall (fun l => 1 <= id l <= lastId w) (rows w)
   /\ StronglySorted Z.lt (map id (rows w))) ->
  0 <= lastId (snd (Db.insert_returning v w))
  /\ Forall (fun l => 1 <= id l <= lastId (snd (Db.insert_returning v w)))
            (rows (snd (Db.insert_returning v w)))
  /\ StronglySorted Z.lt (map id (rows (snd (Db.insert_returning v w)))).
Proof.
  intros (H0 & Hall & Hs). unfold Db.insert_returning.
  destruct (existsb _ _); [repeat split; assumption|].
  destruct (existsb _ _); [repeat split; assumption|].
  simpl. split; [lia|]. split.
  - apply Forall_app. split.
    + refine (Forall_impl _ _ Hall). intros l Hl. simpl in Hl. lia.
    + constructor; [simpl; lia | constructor].
  - rewrite map_app. simpl. apply StronglySorted_snoc; [exact Hs|].
    rewrite Forall_map. refine (Forall_impl _ _ Hall). intros l Hl. simpl in Hl. lia.
Qed.

Lemma ids_in_order_update i n w :
  (0 <= lastId w /\ Forall (fun l => 1 <= id l <= lastId w) (rows w)
   /\ StronglySorted Z.lt (map id (rows w))) ->
  0 <= lastId (snd (Db.update_clickCount i n w))
  /\ Forall (fun l => 1 <= id l <= lastId (snd (Db.update_clickCount i n w)))
            (rows (snd (Db.update_clickCount i n w)))
  /\ StronglySorted Z.lt (map id (rows (snd (Db.update_clickCount i n w)))).
Proof.
  intros (H0 & Hall & Hs). simpl. split; [exact H0|].
  assert (E : map id (map (fun l => if Db.eq_id i l then Db.set_clickCount n l else l)
                          (rows w)) = map id (rows w)).
  { rewrite map_map. apply map_ext. intros l. destruct (Db.eq_id i l); reflexivity. }
  split; [|rewrite E; exact Hs].
  rewrite Forall_map. refine (Forall_impl _ _ Hall). intros l Hl. simpl in Hl.
  destruct (Db.eq_id i l); exact Hl.
Qed.

(** X17: ids are handed out once and in order. After any sequence of
    requests issued against the empty store, under any surroundings, the ids
    of the rows are positive, never above the id sequence, and strictly
    increasing in the order the rows were inserted; in particular no two
    rows share an id. *)
Theorem ids_are_assigned_in_order (reqs : list (Surroundings * Request)) :
  Forall (fun l => 1 <= id l <= lastId (run reqs empty_store))
         (rows (run reqs empty_store))
  /\ StronglySorted Z.lt (map id (rows (run reqs empty_store)))
  /\ unique_ids (rows (run reqs empty_store)).
Proof.
  assert (H : forall w,
             (0 <= lastId w /\ Forall (fun l => 1 <= id l <= lastId w) (rows w)
              /\ StronglySorted Z.lt (map id (rows w))) ->
             0 <= lastId (run reqs w)
             /\ Forall (fun l => 1 <= id l <= lastId (run reqs w)) (rows (run reqs w))
             /\ StronglySorted Z.lt (map id (rows (run reqs w)))).
  { induction reqs as [|[s r] reqs IH]; intros w Hw; simpl; [exact Hw|].
    apply IH.
    apply (preserves_serve
             (fun w' => 0 <= lastId w'
                        /\ Forall (fun l => 1 <= id l <= lastId w') (rows w')
                        /\ StronglySorted Z.lt (map id (rows w')))).
    - intros ev w0 H0. exact H0.
    - intros s0 w0 H0. exact H0.
    - intros c w0 H0. exact H0.
    - exact ids_in_order_insert.
    - exact ids_in_order_update.
    - exact Hw. }
  destruct (H empty_store) as (_ & Hall & Hs).
  - simpl. split; [lia|]. split; constructor.
  - split; [exact Hall|]. split; [exact Hs|].
    destruct (consistent_run reqs empty_store consistent_empty_store) as (Hu & _).
    exact Hu.
Qed.

(** ** A supplied code is used as it is *)

Lemma chosen_code_custom data w c w1 :
  js_not (dto_shortCode data) = false ->
  choose_code data w = (inr c, w1) ->
  dto_shortCode data = Some c.
Proof.
  intros Hno. unfold choose_code, bind at 1.
  destruct (LinkRepository.findByOriginalUrl _ w) as [[e|[l|]] w0];
    [discriminate | discriminate |].
  rewrite Hno. unfold bind.
  destruct (LinkRepository.findByShortCode _ w0) as [[e|[l|]] w2];
    [discriminate | discriminate |].
  unfold ret. intros H. injection H as <- _.
  unfold js_not in Hno. destruct (dto_shortCode data) as [s0|]; [reflexivity|].
  discriminate.
Qed.

(** X18: when the caller supplies a non-empty code, [createLink] draws no
    random bytes, whatever the surroundings do, and a link it returns carries
    exactly the supplied code and the request's URL, with the custom flag and
    zero clicks. *)
Theorem supplied_code_is_never_replaced (data : CreateLinkDTO) (w : World) :
  js_not (dto_shortCode data) = false ->
  cursor (after (LinkService.createLink data w)) = cursor w
  /\ (forall l, outcome (LinkService.createLink data w) = inr l ->
       dto_shortCode data = Some (shortCode l)
       /\ originalUrl l = dto_originalUrl data
       /\ isCustom l = Some true /\ clickCount l = 0).
Proof.
  intros Hno. split.
  - rewrite createLink_steps.
    assert (Hlog : forall ev w', cursor w' = cursor w -> cursor (log ev w') = cursor w)
      by (intros ev w' H; exact H).
    assert (Hscript : forall s w', cursor w' = cursor w ->
                                   cursor (set_script s w') = cursor w)
      by (intros s w' H; exact H).
    assert (Hinsert : forall v w', cursor w' = cursor w ->
                        cursor (snd (Db.insert_returning v w')) = cursor w).
    { intros v w' H. unfold Db.insert_returning.
      destruct (existsb _ _); [exact H|]. destruct (existsb _ _); exact H. }
    refine (preserves_try (fun w' => cursor w' = cursor w) _ _ _ _ w eq_refl).
    + apply preserves_bind.
      * unfold choose_code. rewrite Hno. apply preserves_bind.
        -- apply preserves_findByOriginalUrl; assumption.
        -- intros [l|]; [apply preserves_throw|].
           apply preserves_bind; [apply preserves_findByShortCode; assumption|].
           intros [l|]; [apply preserves_throw | apply preserves_ret].
      * intros c. apply preserves_bind; [|intros; apply preserves_ret].
        apply preserves_create; assumption.
    + intros e. unfold rethrow. destruct (is_LinkServiceError e); apply preserves_throw.
  - intros l. unfold outcome.
    destruct (LinkService.createLink data w) as [r w'] eqn:E. cbn [fst]. intros ->.
    destruct (createLink_returns data w l w' E) as (c & w1 & Hcode & Hcreate).
    destruct (create_returns _ _ _ _ Hcreate) as (Hc & Hu & Hf & Hk & _).
    destruct (chosen_code_truthy _ _ _ _ Hcode) as (Ht & _).
    cbn in Hc, Hu, Hf. rewrite Ht in Hf.
    rewrite (chosen_code_custom data w c w1 Hno Hcode), Hc.
    repeat split; assumption.
Qed.

Lemma supplied_code_is_never_replaced_witness :
  cursor (after (LinkService.createLink
                   (mkDTO "https://new.example" (Some "mycode")) race_on_code))
  = cursor race_on_code.
Proof.
  eapply proj1.
  apply (supplied_code_is_never_replaced
           (mkDTO "https://new.example" (Some "mycode")) race_on_code).
  reflexivity.
Defined.

(** X19: a code that passes the check on the action's [shortCode] input is
    never empty, so the service treats it as supplied: whatever the
    surroundings do, a link returned for it carries that very code. *)
Theorem validated_code_is_kept (url code : string) (w : World) (l : Link) :
  Actions.shortCodeSchema code = true ->
  outcome (LinkService.createLink (mkDTO url (Some code)) w) = inr l ->
  shortCode l = code /\ originalUrl l = url.
Proof.
  intros Hv. unfold outcome.
  destruct (LinkService.createLink (mkDTO url (Some code)) w) as [r w'] eqn:E.
  cbn [fst]. intros ->.
  assert (Hno : js_not (dto_shortCode (mkDTO url (Some code))) = false).
  { destruct code; [discriminate | reflexivity]. }
  destruct (createLink_returns _ w l w' E) as (c & w1 & Hcode & Hcreate).
  destruct (create_returns _ _ _ _ Hcreate) as (Hc & Hu & _).
  pose proof (chosen_code_custom _ w c w1 Hno Hcode) as Hs.
  cbn in Hc, Hu, Hs. injection Hs as <-. split; assumption.
Qed.

Lemma validated_code_is_kept_witness :
  shortCode (mkLink 2 "https://new.example" "mine" (Some true) (Some 2000) 0)
  = "mine"
  /\ originalUrl (mkLink 2 "https://new.example" "mine" (Some true) (Some 2000) 0)
     = "https://new.example".
Proof.
  apply (validated_code_is_kept "https://new.example" "mine" one_link_store).
  - reflexivity.
  - reflexivity.
Defined.

(** ** When the storage is down *)

(** X20: when the first database call of a request finds the storage down,
    nothing is written and each entry point reports it in its own way:
    [createLink] throws INTERNAL_SERVER_ERROR 'Error al crear el enlace',
    [getAllLinks] throws INTERNAL_SERVER_ERROR 'Error al obtener enlaces',
    and [GET], for a non-empty code, answers 500 after logging the error. *)
Theorem outage_at_first_call (w : World) (rest : list Turn) :
  script w = mkTurn [] true :: rest ->
  (forall data,
     outcome (LinkService.createLink data w)
     = inl (LinkServiceError "Error al crear el enlace" INTERNAL_SERVER_ERROR)
     /\ rows (after (LinkService.createLink data w)) = rows w)
  /\ (outcome (LinkService.getAllLinks w)
      = inl (LinkServiceError "Error al obtener enlaces" INTERNAL_SERVER_ERROR)
      /\ rows (after (LinkService.getAllLinks w)) = rows w)
  /\ (forall code, code <> "" ->
      outcome (Route.GET (Some code) w)
      = inr (Route.Plain "Internal Server Error" 500)
      /\ rows (after (Route.GET (Some code) w)) = rows w
      /\ hd_error (trace (after (Route.GET (Some code) w)))
         = Some (EvConsoleError (DriverError Unavailable))).
Proof.
  intros Hs.
  assert (Hcall : forall A ev (op : World -> (DbFailure + A) * World),
             Db.call ev op w
             = (inl (DriverError Unavailable), log ev (set_script rest w))).
  { intros A ev op. unfold Db.call, Db.take_turn. rewrite Hs. reflexivity. }
  split; [|split].
  - intros data.
    assert (E : LinkService.createLink data w
                = (inl (LinkServiceError "Error al crear el enlace"
                                         INTERNAL_SERVER_ERROR),
                   log (EvSelectByUrl (dto_originalUrl data)) (set_script rest w))).
    { rewrite createLink_steps.
      unfold try_catch, bind at 1, choose_code, bind at 1,
        LinkRepository.findByOriginalUrl, bind at 1.
      rewrite Hcall. reflexivity. }
    rewrite E. split; reflexivity.
  - assert (E : LinkService.getAllLinks w
                = (inl (LinkServiceError "Error al obtener enlaces"
                                         INTERNAL_SERVER_ERROR),
                   log EvSelectAll (set_script rest w))).
    { unfold LinkService.getAllLinks, try_catch, LinkRepository.findAll, bind.
      rewrite Hcall. reflexivity. }
    rewrite E. split; reflexivity.
  - intros code Hne.
    assert (E : Route.GET (Some code) w
                = (inr (Route.Plain "Internal Server Error" 500),
                   log (EvConsoleError (DriverError Unavailable))
                     (log (EvSelectByCode code) (set_script rest w)))).
    { unfold Route.GET, try_catch. rewrite (nonempty_truthy code Hne).
      unfold bind at 1. cbn [LinkService.the_string]. rewrite Hcall. reflexivity. }
    rewrite E. repeat split.
Qed.

Lemma outage_at_first_call_witness :
  outcome (LinkService.getAllLinks (set_script [mkTurn [] true] one_link_store))
  = inl (LinkServiceError "Error al obtener enlaces" INTERNAL_SERVER_ERROR).
Proof.
  eapply proj1. eapply proj1. eapply proj2.
  apply (outage_at_first_call (set_script [mkTurn [] true] one_link_store) []).
  reflexivity.
Defined.

(** ** Rows that are there stay as they are *)

Lemma appended_insert w0 v w :
  (exists extra, rows w = (rows w0 ++ extra)%list) ->
  exists extra, rows (snd (Db.insert_returning v w)) = (rows w0 ++ extra)%list.
Proof.
  intros (extra & Hr). unfold Db.insert_returning.
  destruct (existsb _ _); [exists extra; exact Hr|].
  destruct (existsb _ _); [exists extra; exact Hr|].
  eexists. simpl. rewrite Hr, <- app_assoc. reflexivity.
Qed.

(** X21: creating and listing only ever append. While other requests commit
    new links and calls find the storage down, in any combination, after
    [createLink] (layered or inline) or [getAllLinks] the table starts with
    exactly the rows it had, click counts included. *)
Theorem creating_and_listing_only_append (w : World) :
  (forall data, exists extra,
     rows (after (LinkService.createLink data w)) = (rows w ++ extra)%list)
  /\ (forall data, exists extra,
        rows (after (InlineActions.createLink data w)) = (rows w ++ extra)%list)
  /\ (exists extra,
        rows (after (LinkService.getAllLinks w)) = (rows w ++ extra)%list).
Proof.
  assert (Hlog : forall ev w', (exists extra, rows w' = (rows w ++ extra)%list) ->
                   exists extra, rows (log ev w') = (rows w ++ extra)%list)
    by (intros ev w' H; exact H).
  assert (Hscript : forall s w', (exists extra, rows w' = (rows w ++ extra)%list) ->
                   exists extra, rows (set_script s w') = (rows w ++ extra)%list)
    by (intros s w' H; exact H).
  assert (Hcursor : forall c w', (exists extra, rows w' = (rows w ++ extra)%list) ->
                   exists extra, rows (set_cursor c w') = (rows w ++ extra)%list)
    by (intros c w' H; exact H).
  assert (H0 : exists extra, rows w = (rows w ++ extra)%list)
    by (exists []; rewrite app_nil_r; reflexivity).
  split; [|split].
  - intros data.
    exact (preserves_service_createLink _ Hlog Hscript Hcursor
             (appended_insert w) data w H0).
  - intros data.
    exact (preserves_inline_createLink _ Hlog Hscript Hcursor
             (appended_insert w) data w H0).
  - exact (preserves_getAllLinks _ Hlog Hscript (appended_insert w) w H0).
Qed.

Lemma GET_always_answers_witness :
  Route.GET None two_link_store
  = (inr (Route.Plain "Short code not provided" 400), two_link_store).
Proof.
  apply (proj2 (GET_always_answers None two_link_store)). reflexivity.
Defined.

(** ** An empty custom code *)

Lemma driver_error_is_not_bad_request e :
  is_driver_error e -> forall m, e <> LinkServiceError m BAD_REQUEST.
Proof. intros (f & ->) m. discriminate. Qed.

Lemma generate_never_bad_request n :
  throws_only (fun e => forall m, e <> LinkServiceError m BAD_REQUEST)
              (LinkService.generateUniqueShortCode n).
Proof.
  induction n as [|n IH]; simpl.
  - apply throws_only_throw. intros m. discriminate.
  - apply throws_only_bind; [intros w e H; discriminate|].
    intros candidate. apply throws_only_bind.
    + apply (throws_only_weaken _ _ _ driver_error_is_not_bad_request).
      apply throws_only_findByShortCode.
    + intros [l|]; [exact IH | apply throws_only_ret].
Qed.

Lemma generation_never_bad_request url w message :
  outcome (LinkService.createLink (mkDTO url None) w)
  <> inl (LinkServiceError message BAD_REQUEST).
Proof.
  intros H.
  assert (Hq : throws_only
                 (fun e => forall m, e <> LinkServiceError m BAD_REQUEST)
                 (try_catch
                    (code <- choose_code (mkDTO url None) ;;
                     newLink <- LinkRepository.create
                       (LinkRepository.mkCreate
                          (dto_originalUrl (mkDTO url None)) code) ;;
                     ret newLink) rethrow)).
  { apply (throws_only_try
             (fun e => forall m, e <> LinkServiceError m BAD_REQUEST)).
    - apply throws_only_bind.
      + unfold choose_code. cbn [dto_shortCode dto_originalUrl js_not truthy negb].
        apply throws_only_bind.
        * apply (throws_only_weaken _ _ _ driver_error_is_not_bad_request).
          apply throws_only_findByOriginalUrl.
        * intros [l|]; [|apply generate_never_bad_request].
          apply throws_only_throw. intros m. discriminate.
      + intros code. apply throws_only_bind; [|intros; apply throws_only_ret].
        apply (throws_only_weaken _ _ _ driver_error_is_not_bad_request).
        apply throws_only_create.
    - intros e He. unfold rethrow.
      destruct (is_LinkServiceError e); apply throws_only_throw;
        [exact He | intros m; discriminate]. }
  rewrite createLink_steps in H. exact (Hq w _ H message eq_refl).
Qed.

(** C10: for the service, an empty custom code is the same request as no
    custom code. The two calls return the same result and leave the same
    world, whatever the URL and the store. The empty code is never refused
    as a code: the call never fails with BAD_REQUEST. And it makes the
    service generate: on a quiet store that does not hold the URL, where
    candidate [k] (counting from 0, [k < 3]) is the first free one, the call
    succeeds and stores a link with the request's URL and that candidate, a
    code of 8 characters, as its short code. *)
Theorem empty_custom_code_is_no_custom_code (url : string) (w : World) :
  LinkService.createLink (mkDTO url (Some "")) w
  = LinkService.createLink (mkDTO url None) w
  /\ (forall message,
        outcome (LinkService.createLink (mkDTO url (Some "")) w)
        <> inl (LinkServiceError message BAD_REQUEST))
  /\ (forall l,
        outcome (LinkService.createLink (mkDTO url (Some "")) w) = inr l ->
        String.length (shortCode l) = 8%nat /\ originalUrl l = url)
  /\ (forall k,
        quiet w -> url_stored url w = false -> (k < 3)%nat ->
        (forall j, (j < k)%nat -> code_taken (candidate w j) w = true) ->
        code_taken (candidate w k) w = false ->
        exists l,
          outcome (LinkService.createLink (mkDTO url (Some "")) w) = inr l
          /\ shortCode l = candidate w k
          /\ String.length (shortCode l) = 8%nat
          /\ originalUrl l = url
          /\ In l (rows (after (LinkService.createLink (mkDTO url (Some "")) w)))).
Proof.
  assert (E : LinkService.createLink (mkDTO url (Some "")) w
              = LinkService.createLink (mkDTO url None) w) by reflexivity.
  split; [exact E|]. rewrite E. split; [|split].
  - intros message. apply generation_never_bad_request.
  - intros l. unfold outcome.
    destruct (LinkService.createLink (mkDTO url None) w) as [r w'] eqn:Ec.
    simpl. intros ->.
    destruct (createLink_returns _ w l w' Ec) as (code & w1 & Hcode & Hcreate).
    destruct (create_returns _ _ _ _ Hcreate) as (Hc & Hu & _).
    destruct (chosen_code_truthy _ _ _ _ Hcode) as (_ & Hlen).
    cbn in Hc, Hu. rewrite Hc, Hu. split; [apply Hlen; reflexivity | reflexivity].
  - intros k Hq Hu Hk Htaken Hfree.
    destruct (createLink_first_free url w k Hq Hu Hk Htaken Hfree)
      as (l & w' & Ec & Hc & Ho & Hin & _).
    exists l. rewrite Ec. unfold outcome, after. cbn [fst snd].
    split; [reflexivity|]. split; [exact Hc|].
    split; [|split; assumption].
    rewrite Hc. unfold candidate. apply draw_shape.
Qed.

Lemma empty_custom_code_is_no_custom_code_witness :
  exists l,
    outcome (LinkService.createLink (mkDTO "https://example.com" (Some ""))
                                    empty_store) = inr l
    /\ shortCode l = candidate empty_store 0
    /\ String.length (shortCode l) = 8%nat
    /\ originalUrl l = "https://example.com"
    /\ In l (rows (after (LinkService.createLink
                            (mkDTO "https://example.com" (Some ""))
                            empty_store))).
Proof.
  apply (proj2 (proj2 (proj2 (empty_custom_code_is_no_custom_code
                                "https://example.com" empty_store)))
               0%nat).
  - reflexivity.
  - reflexivity.
  - lia.
  - intros j Hj. lia.
  - reflexivity.
Defined.
